(** * The event-edit action of the volunteer scheduler and its horse
      cooldown check

    A shallow embedding of [action] in the event-edit route (the second
    document of [app/routes/admin+/_users+/users.tsx]) together with the
    pieces of date-fns, Array.prototype and the ORM it calls.

    Conventions.
    - A JavaScript [Date] is represented by its time value: the integer
      number of milliseconds since 1970-01-01T00:00Z, of absolute value
      at most 8.64e15, or no number at all for Invalid Date.  The schema
      ([z.coerce.date], [z.date]) lets only valid dates through, so the
      dates of a form are time values; the dates the route computes (a
      day after a cooldown end, the end of the event) can be invalid, and
      a relational operator with an invalid date is false.
    - date-fns does its calendar arithmetic in the local time zone of the
      process.  The zone is a parameter, [JsDate.TimeZone]: the offset of
      local time from UTC at every instant.
    - An optional field ([T | undefined]) is an [option]. *)

From Stdlib Require Import ZArith String List Bool Lia.
From stdpp Require Import gmap strings list.
Import ListNotations.

Local Open Scope string_scope.
Local Open Scope Z_scope.

(** ** Date objects *)

Module JsDate.

(** The largest absolute time value of a [Date]. *)
Definition maxTime : Z := 8640000000000000.

Definition msPerDay : Z := 86400000.

(** A [Date] object: [Some t] holds the time value [t]; [None] is Invalid
    Date, whose time value is NaN. *)
Definition Date : Type := option Z.

(** [TimeClip]: a time value out of range makes the date invalid. *)
Definition TimeClip (time : Z) : Date :=
  if Z.abs time <=? maxTime then Some time else None.

(** The time zone of the process: [LocalTZA t isUTC] is the offset of
    local time from UTC, in milliseconds, at the instant [t], which is a
    UTC time value when [isUTC] holds and a local one otherwise. *)
Class TimeZone : Type := {
  LocalTZA : Z -> bool -> Z
}.

(** [LocalTime] and [UTC], the two conversions. *)
Definition LocalTime {tz : TimeZone} (t : Z) : Z := t + LocalTZA t true.

Definition UTC {tz : TimeZone} (t : Z) : Z := t - LocalTZA t false.

(** [a < b] for the time value [a] of a valid date and a date [b]: false
    when [b] is invalid, NaN comparing false with everything. *)
Definition lt (a : Z) (b : Date) : bool :=
  match b with
  | Some tb => a <? tb
  | None => false
  end.

(** [date.setDate(date.getDate() + amount)] on a valid date: the local
    time is split in its day and its time within the day, the day of the
    month moved by [amount], which moves the day number by as much and
    leaves the time within the day, and the local time so made is taken
    back to UTC and clipped. *)
Definition setDateBy {tz : TimeZone} (tv amount : Z) : Date :=
  TimeClip (UTC (LocalTime tv + amount * msPerDay)).

End JsDate.

(** ** date-fns *)

Module DateFns.

Definition millisecondsInMinute : Z := 60000.
Definition millisecondsInDay : Z := 86400000.

(** [addMilliseconds(date, amount)]: [new Date(timestamp + amount)]. *)
Definition addMilliseconds (date amount : Z) : JsDate.Date :=
  JsDate.TimeClip (date + amount).

(** [addMinutes(date, amount)]: a whole number of minutes later. *)
Definition addMinutes (date amount : Z) : JsDate.Date :=
  addMilliseconds date (amount * millisecondsInMinute).

(** [addDays(date, amount)]: the date itself when [amount] is 0,
    otherwise [setDate] moves the calendar date in the local zone. *)
Definition addDays {tz : JsDate.TimeZone} (date amount : Z) : JsDate.Date :=
  if amount =? 0 then Some date else JsDate.setDateBy date amount.

(** The [Duration] object handed to [add].  Only the units of fixed
    length are kept; the route passes [{ days: 1 }], every other unit
    being absent, that is 0. *)
Record Duration : Type := mkDuration {
  weeks : Z;
  days : Z;
  hours : Z;
  minutes : Z;
  seconds : Z
}.

Definition daysOnly (n : Z) : Duration :=
  {| weeks := 0; days := n; hours := 0; minutes := 0; seconds := 0 |}.

(** [add(date, duration)]: first the days and weeks through [addDays]
    (skipped when both are 0), then the remaining units as milliseconds
    added to the time value of that date, which stays invalid when
    [addDays] made it so. *)
Definition add {tz : JsDate.TimeZone} (date : Z) (duration : Duration)
    : JsDate.Date :=
  let dateWithDays :=
    if (days duration =? 0) && (weeks duration =? 0) then Some date
    else addDays date (days duration + weeks duration * 7) in
  let minutesToAdd := minutes duration + hours duration * 60 in
  let secondsToAdd := seconds duration + minutesToAdd * 60 in
  let msToAdd := secondsToAdd * 1000 in
  match dateWithDays with
  | Some time => JsDate.TimeClip (time + msToAdd)
  | None => None
  end.

End DateFns.

(** ** Array.prototype.join *)

Module JsArray.

(** [join(separator)] as ECMAScript runs it: the result starts empty,
    and every element after the first is preceded by the separator. *)
Fixpoint joinFrom (R : string) (separator : string) (k : nat)
    (elements : list string) : string :=
  match elements with
  | [] => R
  | element :: rest =>
      let R := match k with O => R | S _ => R +:+ separator end in
      joinFrom (R +:+ element) separator (S k) rest
  end.

Definition join (elements : list string) (separator : string) : string :=
  joinFrom "" separator O elements.

End JsArray.

(** ** The submitted form *)

(** Modelled from the spec: [optionalDateSchema], which the route imports
    from the zod extensions of the application.  The data model gives a
    horse an optional cooldown start and an optional cooldown end, so the
    schema yields a [Date] or [undefined]. *)
Definition OptionalDate : Type := option Z.

(** [horseSchema]. *)
Record Horse : Type := mkHorse {
  id : string;
  name : string;
  cooldownStartDate : OptionalDate;
  cooldownEndDate : OptionalDate
}.

(** [instructorSchema] (before [.optional()]). *)
Record Instructor : Type := mkInstructor {
  instructorId : string;
  instructorName : string;
  instructorUsername : string
}.

(** The value of a submission that passed [editEventSchema].  [duration]
    is in minutes, of which [addMinutes] uses the whole part; the counts
    of volunteers are numbers above -1. *)
Record EditEvent : Type := mkEditEvent {
  title : string;
  startDate : Z;
  duration : Z;
  horses : option (list Horse);
  instructor : option Instructor;
  cleaningCrewReq : Z;
  lessonAssistantsReq : Z;
  sideWalkersReq : Z;
  horseLeadersReq : Z;
  isPrivate : bool
}.

(** What [parse(formData, { schema })] returns: the raw entries, and the
    typed [value] only when validation succeeded. *)
Record Submission : Type := mkSubmission {
  payload : list (string * string);
  value : option EditEvent
}.

(** ** The cooldown check (lines 268-287 of the route) *)

(** The callback given to [filter]: both boundaries must be there (a
    [Date] object is truthy whatever its time value), and the start must
    fall in the window closed by the day after the end date. *)
Definition inCooldown {tz : JsDate.TimeZone} (start : Z) (horse : Horse)
    : bool :=
  match cooldownStartDate horse, cooldownEndDate horse with
  | Some cooldownStart, Some cooldownEnd =>
      (cooldownStart <=? start)
      && JsDate.lt start (DateFns.add cooldownEnd (DateFns.daysOnly 1))
  | _, _ => false
  end.

(** [errorHorses = selectedHorsesArray.filter(...)]. *)
Definition errorHorses {tz : JsDate.TimeZone} (start : Z)
    (selectedHorsesArray : list Horse) : list Horse :=
  List.filter (inCooldown start) selectedHorsesArray.

(** [listOfHorses = errorHorses.map(h => h.name).join(', ')]. *)
Definition listOfHorses (errorHorses : list Horse) : string :=
  JsArray.join (List.map name errorHorses) ", ".

(** ** The ORM *)

Module Prisma.

(** The columns and relations of an [event] row that the route writes.
    A relation is kept as the ids of the connected rows; [end] is the
    date the route computed. *)
Record EventData : Type := mkEventData {
  title : string;
  start : Z;
  end_ : JsDate.Date;
  instructors : list string;
  horses : list string;
  cleaningCrewReq : Z;
  lessonAssistantsReq : Z;
  sideWalkersReq : Z;
  horseLeadersReq : Z;
  isPrivate : bool
}.

(** A stored row: the columns above, and whatever else the schema of
    the table holds (the schema file is not part of the route, so the
    remainder is a parameter). *)
Record Event (Rest : Type) : Type := mkEvent {
  data : EventData;
  rest : Rest
}.
Arguments mkEvent {Rest} _ _.
Arguments data {Rest} _.
Arguments rest {Rest} _.

(** [prisma.event.update({ where: { id }, data })] on the table: the
    row with that id gets the new data and is returned; when there is
    no such row the call rejects and the table is left as it was. *)
Definition eventUpdate {Rest : Type} (where_id : string)
    (newData : EventData) (events : gmap string (Event Rest))
    : option (Event Rest) * gmap string (Event Rest) :=
  match events !! where_id with
  | Some row =>
      let updated := mkEvent newData (rest row) in
      (Some updated, <[where_id := updated]> events)
  | None => (None, events)
  end.

End Prisma.

(** ** Requests, responses and the handler monad *)

Record Request : Type := mkRequest {
  headers : list (string * string);
  (** the body as [parse(await request.formData(), ...)] reads it *)
  formData : Submission
}.

Record Params : Type := mkParams {
  eventId : option string
}.

(** The object given to [json] by the action. *)
Record ActionData : Type := mkActionData {
  status : string;
  submission : Submission;
  message : option string
}.

Record Toast : Type := mkToast {
  toastTitle : string;
  variant : option string;
  description : string
}.

Inductive Response : Type :=
  | Json (body : ActionData) (httpStatus : Z)
  | RedirectWithToast (url : string) (toast : Toast).

(** What an awaited call can reject with. *)
Inductive Exception : Type :=
  | AdminRequired
  | InvariantFailed (msg : string)
  | RecordNotFound.

(** A handler step reads and writes the event table and either yields a
    value or throws. *)
Definition Handler (Rest A : Type) : Type :=
  gmap string (Prisma.Event Rest) ->
  (Exception + A) * gmap string (Prisma.Event Rest).

Definition ret {Rest A : Type} (a : A) : Handler Rest A :=
  fun events => (inr a, events).

Definition throw {Rest A : Type} (e : Exception) : Handler Rest A :=
  fun events => (inl e, events).

Definition bind {Rest A B : Type} (m : Handler Rest A)
    (k : A -> Handler Rest B) : Handler Rest B :=
  fun events =>
    match m events with
    | (inr a, events') => k a events'
    | (inl e, events') => (inl e, events')
    end.

Declare Scope handler_scope.
Delimit Scope handler_scope with handler.
Notation "x <-- m ;;; k" := (bind m (fun x => k))
  (at level 100, m at next level, right associativity) : handler_scope.

(** JavaScript truthiness of a string. *)
Definition truthy (s : string) : bool := negb (String.eqb s "").

(** [invariant(condition, message)] on an optional string. *)
Definition invariant {Rest : Type} (condition : option string)
    (msg : string) : Handler Rest string :=
  match condition with
  | Some s => if truthy s then ret s else throw (InvariantFailed msg)
  | None => throw (InvariantFailed msg)
  end.

(** [await prisma.event.update(...)] as a handler step. *)
Definition prismaEventUpdate {Rest : Type} (where_id : string)
    (newData : Prisma.EventData) : Handler Rest (Prisma.Event Rest) :=
  fun events =>
    match Prisma.eventUpdate where_id newData events with
    | (Some updated, events') => (inr updated, events')
    | (None, events') => (inl RecordNotFound, events')
    end.

(** ** The action *)

(** The block guarded by [if (submission.value.horses)]: the response it
    returns early with, or [None] when control falls through to the
    update.  An array is truthy even when empty. *)
Definition cooldownCheck {tz : JsDate.TimeZone} (submission : Submission)
    (v : EditEvent) : option Response :=
  match horses v with
  | Some selectedHorsesArray =>
      let start := startDate v in
      let errorHorses := errorHorses start selectedHorsesArray in
      let listOfHorses := listOfHorses errorHorses in
      if (0 <? length errorHorses)%nat then
        Some (Json {| status := "horse-error";
                      submission := submission;
                      message := Some listOfHorses |} 200)
      else None
  | None => None
  end.

(** The [data] object of the update, built from the validated value. *)
Definition updateData (v : EditEvent) : Prisma.EventData :=
  let start := startDate v in
  let end_ := DateFns.addMinutes start (duration v) in
  let instructorData :=
    match instructor v with
    | Some i => if truthy (instructorId i) then [instructorId i] else []
    | None => []
    end in
  let horseIds := option_map (List.map id) (horses v) in
  {| Prisma.title := title v;
     Prisma.start := start;
     Prisma.end_ := end_;
     Prisma.instructors := instructorData;
     Prisma.horses := match horseIds with Some ids => ids | None => [] end;
     Prisma.cleaningCrewReq := cleaningCrewReq v;
     Prisma.lessonAssistantsReq := lessonAssistantsReq v;
     Prisma.sideWalkersReq := sideWalkersReq v;
     Prisma.horseLeadersReq := horseLeadersReq v;
     Prisma.isPrivate := isPrivate v |}.

Section Action.

Context {tz : JsDate.TimeZone} {Rest : Type}.

(** [requireAdmin] lives in the permission utilities of the
    application; here it is the test it performs on the request:
    [true] when the awaited call returns, [false] when it throws. *)
Variable requireAdmin : Request -> bool.

Local Open Scope handler_scope.

Definition action (request : Request) (params : Params)
    : Handler Rest Response :=
  _ <-- (if requireAdmin request then ret tt
         else throw AdminRequired) ;;;
  eventId <-- invariant (eventId params) "Missing event id" ;;;
  let submission := formData request in
  match value submission with
  | None =>
      ret (Json {| status := "error";
                   submission := submission;
                   message := None |} 400)
  | Some v =>
      match cooldownCheck submission v with
      | Some horseError => ret horseError
      | None =>
          updatedEvent <-- prismaEventUpdate eventId (updateData v) ;;;
          (* [updatedEvent] is an object, hence truthy: the
             "Failed to update event" toast is never sent. *)
          ret (RedirectWithToast ".."
                 {| toastTitle := "Success";
                    variant := None;
                    description :=
                      "Updated event "
                      +:+ Prisma.title (Prisma.data updatedEvent) |})
      end
  end.

End Action.

(** ** Vocabulary of the specification *)

(** The horse is among those the check reports for this start. *)
Definition reports {tz : JsDate.TimeZone} (start : Z)
    (selectedHorsesArray : list Horse) (horse : Horse) : Prop :=
  In horse (errorHorses start selectedHorsesArray).

(** The conflicting horses the action computes for a validated value
    (none when the [horses] field is missing). *)
Definition conflictingHorses {tz : JsDate.TimeZone} (v : EditEvent)
    : list Horse :=
  match horses v with
  | Some selectedHorsesArray =>
      errorHorses (startDate v) selectedHorsesArray
  | None => []
  end.

(** The same submission with another duration. *)
Definition withDuration (d : Z) (v : EditEvent) : EditEvent :=
  {| title := title v;
     startDate := startDate v;
     duration := d;
     horses := horses v;
     instructor := instructor v;
     cleaningCrewReq := cleaningCrewReq v;
     lessonAssistantsReq := lessonAssistantsReq v;
     sideWalkersReq := sideWalkersReq v;
     horseLeadersReq := horseLeadersReq v;
     isPrivate := isPrivate v |}.

(** Whether a response is the cooldown failure, and the message of a
    finished run when it is one. *)
Definition isHorseError (r : Response) : bool :=
  match r with
  | Json body _ => String.eqb (status body) "horse-error"
  | RedirectWithToast _ _ => false
  end.

Definition horseErrorMessage (r : Exception + Response) : option string :=
  match r with
  | inr (Json body httpStatus) =>
      if isHorseError (Json body httpStatus) then message body else None
  | _ => None
  end.

(** The time value fits a [Date]. *)
Definition inDateRange (t : Z) : Prop := Z.abs t <= JsDate.maxTime.

(** The clock does not change over the calendar day after [t]: the
    local time a day later has the offset from UTC that [t] has. *)
Definition noClockChangeAfter {tz : JsDate.TimeZone} (t : Z) : Prop :=
  JsDate.LocalTZA (JsDate.LocalTime t + DateFns.millisecondsInDay) false =
  JsDate.LocalTZA t true.

(** The request gets past the guards that precede the check: the
    caller is an admin, the route has a non-empty event id, and the form
    validated to [v]. *)
Definition validated (requireAdmin : Request -> bool) (request : Request)
    (params : Params) (eid : string) (v : EditEvent) : Prop :=
  requireAdmin request = true
  /\ eventId params = Some eid
  /\ truthy eid = true
  /\ value (formData request) = Some v.

(** The redirect that ends a successful update. *)
Definition successRedirect (v : EditEvent) : Response :=
  RedirectWithToast ".."
    {| toastTitle := "Success";
       variant := None;
       description := "Updated event " +:+ title v |}.

(** The response of the cooldown failure. *)
Definition horseErrorResponse (submission : Submission)
    (conflicts : list Horse) : Response :=
  Json {| status := "horse-error";
          submission := submission;
          message := Some (listOfHorses conflicts) |} 200.

(** Calendar dates: instants named by their UTC date and time, and the
    local calendar day of an instant. *)
Module Calendar.

(** Days from 1970-01-01 to the given proleptic Gregorian date
    (month 1 to 12). *)
Definition daysFromCivil (y m d : Z) : Z :=
  let y' := if m <=? 2 then y - 1 else y in
  let era := y' / 400 in
  let yoe := y' - era * 400 in
  let mp := if m <=? 2 then m + 9 else m - 3 in
  let doy := (153 * mp + 2) / 5 + d - 1 in
  let doe := yoe * 365 + yoe / 4 - yoe / 100 + doy in
  era * 146097 + doe - 719468.

(** The time value of [y-m-dThh:mi] UTC. *)
Definition utc (y m d hh mi : Z) : Z :=
  daysFromCivil y m d * DateFns.millisecondsInDay
  + (hh * 60 + mi) * DateFns.millisecondsInMinute.

(** The time value of the date [y-m-d], that is its midnight. *)
Definition date (y m d : Z) : Z := utc y m d 0 0.



End Calendar.

(** ** Two time zones *)

Module Zone.

(** UTC: local time is UTC. *)
Definition utc : JsDate.TimeZone := {| JsDate.LocalTZA := fun _ _ => 0 |}.

(** New York over 2024: five hours behind UTC, four between
    2024-03-10T07:00Z and 2024-11-03T06:00Z; a local time the clock
    skips or shows twice is read with the offset before the change. *)
Definition newYork2024 : JsDate.TimeZone :=
  {| JsDate.LocalTZA := fun t isUTC =>
       if isUTC then
         if (1710054000000 <=? t) && (t <? 1730613600000)
         then -14400000 else -18000000
       else
         if (1710039600000 <=? t) && (t <? 1730599200000)
         then -14400000 else -18000000 |}.

End Zone.

(** ** Sample data *)

Module Sample.

(** Resting from 2024-01-10 to 2024-01-12. *)
Definition biscuit : Horse :=
  mkHorse "h1" "Biscuit" (Some (Calendar.date 2024 1 10))
    (Some (Calendar.date 2024 1 12)).

(** Only an end date. *)
Definition clover : Horse :=
  mkHorse "h2" "Clover" None (Some (Calendar.date 2024 1 12)).

(** Resting from 2024-01-11 to 2024-01-14. *)
Definition domino : Horse :=
  mkHorse "h3" "Domino" (Some (Calendar.date 2024 1 11))
    (Some (Calendar.date 2024 1 14)).

(** A one-hour lesson. *)
Definition lesson (start : Z) (selected : option (list Horse))
    : EditEvent :=
  mkEditEvent "Lesson" start 60 selected None 1 1 2 1 false.

(** Biscuit and Domino are resting on the 12th, nobody on the 15th. *)
Definition busy : EditEvent :=
  lesson (Calendar.utc 2024 1 12 9 0) (Some [biscuit; clover; domino]).

Definition free : EditEvent :=
  lesson (Calendar.utc 2024 1 15 9 0) (Some [biscuit; clover; domino]).

Definition noHorses : EditEvent :=
  lesson (Calendar.utc 2024 1 12 9 0) None.

(** Same start and horses as [busy], everything else different. *)
Definition busyOther : EditEvent :=
  mkEditEvent "Trail ride" (Calendar.utc 2024 1 12 9 0) 45
    (Some [biscuit; clover; domino])
    (Some (mkInstructor "u7" "Robin" "robin")) 0 3 0 2 true.

Definition post (v : option EditEvent) : Request :=
  mkRequest [] (mkSubmission [] v).

Definition route : Params := mkParams (Some "ev1").

Definition anyone (request : Request) : bool := true.

Definition stored : Prisma.Event unit :=
  Prisma.mkEvent
    {| Prisma.title := "Old lesson";
       Prisma.start := Calendar.utc 2024 1 5 9 0;
       Prisma.end_ := Some (Calendar.utc 2024 1 5 10 0);
       Prisma.instructors := ["u1"];
       Prisma.horses := ["h1"; "h3"];
       Prisma.cleaningCrewReq := 0;
       Prisma.lessonAssistantsReq := 0;
       Prisma.sideWalkersReq := 0;
       Prisma.horseLeadersReq := 0;
       Prisma.isPrivate := false |} tt.

Definition table : gmap string (Prisma.Event unit) :=
  {[ "ev1" := stored ]}.

End Sample.

(** ** More vocabulary: the schema, the shape of an outcome *)

(** The refinements [editEventSchema] puts on a value it lets through: a
    title of at least one character, a duration above 0, counts of
    volunteers above -1. *)
Definition editEventSchemaRefinements (v : EditEvent) : bool :=
  (1 <=? String.length (title v))%nat
  && (0 <? duration v)
  && (-1 <? cleaningCrewReq v)
  && (-1 <? lessonAssistantsReq v)
  && (-1 <? sideWalkersReq v)
  && (-1 <? horseLeadersReq v).

(** The same submission with another selection of horses. *)
Definition withHorses (selected : option (list Horse)) (v : EditEvent)
    : EditEvent :=
  {| title := title v;
     startDate := startDate v;
     duration := duration v;
     horses := selected;
     instructor := instructor v;
     cleaningCrewReq := cleaningCrewReq v;
     lessonAssistantsReq := lessonAssistantsReq v;
     sideWalkersReq := sideWalkersReq v;
     horseLeadersReq := horseLeadersReq v;
     isPrivate := isPrivate v |}.

(** The submission once the user has deselected the horses the check
    named. *)
Definition withoutReported {tz : JsDate.TimeZone} (v : EditEvent)
    : EditEvent :=
  withHorses
    (option_map
       (List.filter (fun horse => negb (inCooldown (startDate v) horse)))
       (horses v))
    v.

(** Whether a finished run ended in a redirect. *)
Definition isRedirect (r : Exception + Response) : bool :=
  match r with
  | inr (RedirectWithToast _ _) => true
  | _ => false
  end.

(** ** More sample data *)

Module MoreSamples.

(** A form whose selection of horses is empty. *)
Definition emptySelection : EditEvent :=
  Sample.lesson (Calendar.utc 2024 1 12 9 0) (Some []).

(** A lesson given by Robin. *)
Definition withRobin : EditEvent :=
  mkEditEvent "Lesson" (Calendar.utc 2024 1 15 9 0) 90
    (Some [Sample.biscuit])
    (Some (mkInstructor "u7" "Robin" "robin")) 0 1 0 1 false.

(** A table with a second event. *)
Definition twoEvents : gmap string (Prisma.Event unit) :=
  <["ev2" := Sample.stored]> Sample.table.

Definition nobody (request : Request) : bool := false.

End MoreSamples.

(** ** The database the loaders read *)

Module Db.

(** The columns of a role and of a user that the routes read. *)
Record Role : Type := mkRole {
  roleName : string
}.

Record User : Type := mkUser {
  userId : string;
  email : string;
  fullName : string;
  username : string;
  phone : option string;
  lastLogin : Z;
  instructor : bool;
  roles : list Role
}.

(** The three tables of the event editor.  Users and horses are listed
    in the order [findMany] returns them. *)
Record Tables (Rest : Type) : Type := mkTables {
  users : list User;
  horseRows : list Horse;
  events : gmap string (Prisma.Event Rest)
}.
Arguments mkTables {Rest} _ _ _.
Arguments users {Rest} _.
Arguments horseRows {Rest} _.
Arguments events {Rest} _.

(** [where: { roles: { some: { name } } }]. *)
Definition hasRole (roleNamed : string) (user : User) : bool :=
  existsb (fun r => String.eqb (roleName r) roleNamed) (roles user).

(** [prisma.user.findMany({ where: { roles: { some: { name } } } })]. *)
Definition usersWithRole {Rest : Type} (roleNamed : string)
    (tables : Tables Rest) : list User :=
  List.filter (hasRole roleNamed) (users tables).

(** An event with its relations included: the rows the stored ids point
    to. *)
Record EventWithRelations (Rest : Type) : Type := mkEventWithRelations {
  row : Prisma.Event Rest;
  includedHorses : list Horse;
  includedInstructors : list User
}.
Arguments mkEventWithRelations {Rest} _ _ _.
Arguments row {Rest} _.
Arguments includedHorses {Rest} _.
Arguments includedInstructors {Rest} _.

Definition memberOf (ids : list string) (key : string) : bool :=
  existsb (String.eqb key) ids.

(** [prisma.event.findUnique({ where: { id }, include: { horses: true,
    instructors: true } })]. *)
Definition eventFindUnique {Rest : Type} (where_id : string)
    (tables : Tables Rest) : option (EventWithRelations Rest) :=
  match events tables !! where_id with
  | Some stored =>
      Some (mkEventWithRelations stored
              (List.filter
                 (fun h => memberOf (Prisma.horses (Prisma.data stored))
                             (id h))
                 (horseRows tables))
              (List.filter
                 (fun u => memberOf
                             (Prisma.instructors (Prisma.data stored))
                             (userId u))
                 (users tables)))
  | None => None
  end.

End Db.

(** ** The loader of the event editor *)

Module EditorLoader.

(** What the loader can throw: a rejection of one of its guards, or the
    response it builds itself. *)
Inductive Thrown : Type :=
  | Rejected (e : Exception)
  | ThrownResponse (body : string) (httpStatus : Z).

(** The object given to [json]. *)
Record Data (Rest : Type) : Type := mkData {
  event : Db.EventWithRelations Rest;
  horses : list Horse;
  instructors : list Db.User
}.
Arguments mkData {Rest} _ _ _.
Arguments event {Rest} _.
Arguments horses {Rest} _.
Arguments instructors {Rest} _.

Section Loader.

Context {Rest : Type}.
Variable requireAdmin : Request -> bool.

Definition loader (request : Request) (params : Params)
    (tables : Db.Tables Rest) : Thrown + Data Rest :=
  if requireAdmin request then
    match eventId params with
    | Some eventId =>
        if truthy eventId then
          let instructors := Db.usersWithRole "instructor" tables in
          let horses := Db.horseRows tables in
          match Db.eventFindUnique eventId tables with
          | Some event => inr (mkData event horses instructors)
          | None => inl (ThrownResponse "not found" 404)
          end
        else inl (Rejected (InvariantFailed "Missing event id"))
    | None => inl (Rejected (InvariantFailed "Missing event id"))
    end
  else inl (Rejected AdminRequired).

End Loader.

End EditorLoader.

(** ** The event editor component *)

Module Editor.

(** date-fns [differenceInMinutes(dateLeft, dateRight)]: the full minutes
    between the two dates, rounded towards zero. *)
Definition differenceInMinutes (dateLeft dateRight : Z) : Z :=
  Z.quot (dateLeft - dateRight) DateFns.millisecondsInMinute.

(** [useNavigation()] as far as the component reads it. *)
Record Navigation : Type := mkNavigation {
  state : string;
  formAction : option string;
  formMethod : option string
}.

Definition isSubmitting (navigation : Navigation) (formAction_ : string)
    : bool :=
  String.eqb (state navigation) "submitting"
  && match formAction navigation with
     | Some a => String.eqb a formAction_
     | None => false
     end
  && match formMethod navigation with
     | Some m => String.eqb m "PUT"
     | None => false
     end.

(** [useActionData()]: the body of a json answer of the action; nothing
    after a redirect or a thrown exception. *)
Definition useActionData (outcome : Exception + Response)
    : option ActionData :=
  match outcome with
  | inr (Json body _) => Some body
  | _ => None
  end.

(** [new Date(value)] on a date as the loader's json carries it: the
    date itself, and the epoch for an invalid date, which json writes as
    [null]. *)
Definition reviveDate (value : JsDate.Date) : Z :=
  match value with
  | Some t => t
  | None => 0
  end.

(** [defaultDuration]; [data.event] is missing when the loader gave
    nothing. *)
Definition defaultDuration {Rest : Type}
    (data : option (EditorLoader.Data Rest)) : Z :=
  match data with
  | Some d =>
      let stored := Prisma.data (Db.row (EditorLoader.event d)) in
      differenceInMinutes (reviveDate (Prisma.end_ stored))
        (Prisma.start stored)
  | None => 30
  end.

(** [defaultIsPrivate]. *)
Definition defaultIsPrivate {Rest : Type}
    (data : option (EditorLoader.Data Rest)) : bool :=
  match data with
  | Some d => Prisma.isPrivate (Prisma.data (Db.row (EditorLoader.event d)))
  | None => false
  end.

(** [defaultValue.instructor]: [data.event?.instructors[0]]. *)
Definition defaultInstructor {Rest : Type}
    (data : option (EditorLoader.Data Rest)) : option Db.User :=
  match data with
  | Some d => List.head (Db.includedInstructors (EditorLoader.event d))
  | None => None
  end.

(** The argument of [toast]. *)
Record ToastProps : Type := mkToastProps {
  toastVariant : string;
  toastHeading : string;
  toastDescription : option string
}.

(** The callback given to [useResetCallback]: the toast it raises, if
    any. *)
Definition resetCallback (actionData : option ActionData)
    : option ToastProps :=
  match actionData with
  | None => None
  | Some a =>
      if String.eqb (status a) "horse-error" then
        Some {| toastVariant := "destructive";
                toastHeading :=
                  "The following horses are scheduled for cooldown on the selected date:";
                toastDescription := message a |}
      else None
  end.

(** The [status] prop of the Save button. *)
Definition saveButtonStatus (isSubmitting : bool)
    (actionData : option ActionData) : string :=
  if isSubmitting then "pending"
  else
    match actionData with
    | Some a => if String.eqb (status a) "error" then "error" else "idle"
    | None => "idle"
    end.

End Editor.

(** ** String.prototype.slice *)

Module JsString.

(** [s.slice(start, end)] for indices that are not negative: both are
    clamped to the length, and the characters from the first up to the
    second are kept (none when the second is not beyond the first).
    Characters are the units of the string. *)
Definition slice (s : string) (start end_ : nat) : string :=
  let len := String.length s in
  let from := Nat.min start len in
  let to := Nat.min end_ len in
  String.substring from (to - from) s.

End JsString.

(** ** The users table of the admin pages *)

Module UsersTable.

(** The [phone] column: three, three and four characters between
    dashes, nothing for a missing or empty number. *)
Definition phoneCell (phone : option string) : option string :=
  match phone with
  | Some s =>
      if truthy s then
        Some (JsString.slice s 0 3 +:+ "-" +:+ JsString.slice s 3 6
              +:+ "-" +:+ JsString.slice s 6 10)
      else None
  | None => None
  end.

(** The [instructor] column. *)
Definition instructorCell (user : Db.User) : string :=
  if Db.instructor user then "Yes" else "No".

(** [row.original.roles.find(r => r.name == roleNamed)]. *)
Definition findRole (roleNamed : string) (user : Db.User)
    : option Db.Role :=
  List.find (fun r => String.eqb (Db.roleName r) roleNamed) (Db.roles user).

(** The three columns read from [roles]; a role object is truthy. *)
Definition roleCell (roleNamed : string) (user : Db.User) : string :=
  match findRole roleNamed user with
  | Some _ => "Yes"
  | None => "No"
  end.

Definition adminCell : Db.User -> string := roleCell "admin".
Definition lessonAssistantCell : Db.User -> string :=
  roleCell "lessonAssistant".
Definition horseLeaderCell : Db.User -> string := roleCell "horseLeader".

(** The menu of the [actions] column: where its three links lead and
    what the third says. *)
Record ActionsMenu : Type := mkActionsMenu {
  editLink : string;
  deleteLink : string;
  promoteLink : string;
  promoteLabel : string
}.

Definition actionsCell (user : Db.User) : ActionsMenu :=
  let isAdmin := findRole "admin" user in
  {| editLink := "edit/" +:+ Db.userId user;
     deleteLink := "delete/" +:+ Db.userId user;
     promoteLink := "/admin/users/promote/" +:+ Db.userId user;
     promoteLabel :=
       match isAdmin with
       | Some _ => "Demote from Admin"
       | None => "Promote to Admin"
       end |}.

End UsersTable.

(** ** The root of the application *)

Module Root.

(** A link descriptor; [as], [type] and [media] are optional. *)
Record LinkDescriptor : Type := mkLink {
  rel : string;
  href : string;
  as_ : option string;
  type_ : option string;
  media : option string
}.

(** [Boolean] on an entry that is a descriptor or [null]. *)
Definition Boolean (entry : option LinkDescriptor) : bool :=
  match entry with
  | Some _ => true
  | None => false
  end.

Definition truthyHref (h : option string) : bool :=
  match h with
  | Some s => truthy s
  | None => false
  end.

(** [links]: the hrefs of the icon sprite and of the two stylesheets are
    assets of the build, [cssBundleHref] is a string or [undefined]. *)
Definition links (iconsHref fontStylestylesheetUrl tailwindStylesheetUrl
    : string) (cssBundleHref : option string)
    : list (option LinkDescriptor) :=
  List.filter Boolean
    [ Some (mkLink "preload" iconsHref (Some "image") None None);
      Some (mkLink "preload" fontStylestylesheetUrl (Some "style") None None);
      Some (mkLink "preload" tailwindStylesheetUrl (Some "style") None None);
      match cssBundleHref with
      | Some h =>
          if truthy h then Some (mkLink "preload" h (Some "style") None None)
          else None
      | None => None
      end;
      Some (mkLink "mask-icon" "/favicons/mask-icon.svg" None None None);
      Some (mkLink "alternate icon" "/favicons/favicon-32x32.png" None
              (Some "image/png") None);
      Some (mkLink "apple-touch-icon" "/favicons/apple-touch-icon.png" None
              None None);
      Some (mkLink "manifest" "/site.webmanifest" None None None);
      Some (mkLink "icon" "/favicons/favicon.svg" None (Some "image/svg+xml")
              None);
      Some (mkLink "icon" "/favicons/favicon-dark.svg" None
              (Some "image/svg+xml") (Some "(prefers-color-scheme: dark)"));
      Some (mkLink "stylesheet" fontStylestylesheetUrl None None None);
      Some (mkLink "stylesheet" tailwindStylesheetUrl None None None);
      match cssBundleHref with
      | Some h =>
          if truthy h then Some (mkLink "stylesheet" h None None None)
          else None
      | None => None
      end ].

(** The columns of a user the root loader selects. *)
Record SelectedUser : Type := mkSelectedUser {
  id : string;
  name : option string;
  username : string;
  imageId : option string;
  roles : list Db.Role
}.

(** What the loader throws: the redirect of [authenticator.logout]. *)
Inductive Thrown : Type :=
  | LogoutRedirect (redirectTo : string).

Section Loader.

(** The helpers of the application and of the session library that the
    loader calls, with the types of what they give. *)
Context {Hints Theme Env Flash Headers : Type}.
Variable getUserId : Request -> option string.
Variable getFlashSession : Request -> Flash * Headers.
Variable getHints : Request -> Hints.
Variable getDomainUrl : Request -> string.
Variable pathname : Request -> string.
Variable getTheme : Request -> Theme.
Variable getEnv : Env.
Variable serverTimingHeaders : Request -> Headers.
Variable combineHeaders : Headers -> Headers -> Headers.

Record RequestInfo : Type := mkRequestInfo {
  hints : Hints;
  origin : string;
  path : string;
  sessionTheme : Theme
}.

(** The object given to [json]. *)
Record Data : Type := mkData {
  user : option SelectedUser;
  requestInfo : RequestInfo;
  ENV : Env;
  flash : Flash
}.

Definition loader (request : Request)
    (users : gmap string SelectedUser) : Thrown + Data * Headers :=
  let userId := getUserId request in
  let user :=
    match userId with
    | Some uid => if truthy uid then users !! uid else None
    | None => None
    end in
  let loggedOut :=
    match userId, user with
    | Some uid, None => truthy uid
    | _, _ => false
    end in
  if loggedOut then inl (LogoutRedirect "/")
  else
    let '(flash, flasHeaders) := getFlashSession request in
    inr ({| user := user;
            requestInfo :=
              {| hints := getHints request;
                 origin := getDomainUrl request;
                 path := pathname request;
                 sessionTheme := getTheme request |};
            ENV := getEnv;
            flash := flash |},
         combineHeaders (serverTimingHeaders request) flasHeaders).

End Loader.

End Root.

(** ** Sample tables *)

Module EditorSamples.

Definition robin : Db.User :=
  Db.mkUser "u7" "robin@example.com" "Robin" "robin" (Some "5551234567")
    (Calendar.utc 2024 1 2 8 0) true
    [Db.mkRole "instructor"; Db.mkRole "horseLeader"].

Definition sam : Db.User :=
  Db.mkUser "u1" "sam@example.com" "Sam" "sam" None
    (Calendar.utc 2024 1 3 8 0) false [Db.mkRole "admin"].

Definition tables : Db.Tables unit :=
  Db.mkTables [sam; robin] [Sample.biscuit; Sample.clover; Sample.domino]
    Sample.table.

(** The tables after the save of [Sample.free], on a UTC clock. *)
Definition tablesAfterSave : Db.Tables unit :=
  Db.mkTables (Db.users tables) (Db.horseRows tables)
    (snd (action (tz := Zone.utc) Sample.anyone
            (Sample.post (Some Sample.free)) Sample.route
            (Db.events tables))).

Definition reloaded : EditorLoader.Data unit :=
  EditorLoader.mkData
    (Db.mkEventWithRelations (Prisma.mkEvent (updateData Sample.free) tt)
       [Sample.biscuit; Sample.clover; Sample.domino] [])
    [Sample.biscuit; Sample.clover; Sample.domino]
    [robin].

End EditorSamples.

(** ** Facts about the library models *)

Section Zoned.

Context {tz : JsDate.TimeZone}.

Lemma TimeClip_in_range (t : Z) :
  inDateRange t -> JsDate.TimeClip t = Some t.
Proof.
  unfold inDateRange, JsDate.TimeClip. intros H.
  apply Z.leb_le in H. now rewrite H.
Qed.

Lemma TimeClip_Some (t t' : Z) :
  JsDate.TimeClip t = Some t' -> t' = t /\ inDateRange t.
Proof.
  unfold inDateRange, JsDate.TimeClip.
  destruct (Z.leb_spec (Z.abs t) JsDate.maxTime) as [Hle | Hgt];
    [| discriminate].
  intros [= <-]. now split.
Qed.

(** A day added to a date: the same local time on the next calendar
    day, when that is a date. *)
Lemma add_one_day_local (date : Z) :
  DateFns.add date (DateFns.daysOnly 1) =
  JsDate.TimeClip
    (JsDate.UTC (JsDate.LocalTime date + DateFns.millisecondsInDay)).
Proof.
  unfold DateFns.add, DateFns.daysOnly, DateFns.addDays, JsDate.setDateBy.
  cbn [DateFns.days DateFns.weeks DateFns.hours DateFns.minutes
       DateFns.seconds].
  change (1 + 0 * 7) with 1. change ((1 =? 0) && (0 =? 0)) with false.
  change (1 =? 0) with false. cbv iota.
  change ((0 + (0 + 0 * 60) * 60) * 1000) with 0.
  change (1 * JsDate.msPerDay) with DateFns.millisecondsInDay.
  destruct (JsDate.TimeClip _) as [time|] eqn:Hclip; [| reflexivity].
  apply TimeClip_Some in Hclip as [-> Hrange].
  rewrite Z.add_0_r. now apply TimeClip_in_range.
Qed.

(** Where the clock does not change over that day, it is 86400000 ms
    later. *)
Lemma add_one_day (date : Z) :
  noClockChangeAfter date ->
  DateFns.add date (DateFns.daysOnly 1) =
  JsDate.TimeClip (date + DateFns.millisecondsInDay).
Proof.
  intros Hclock. rewrite add_one_day_local. unfold JsDate.UTC.
  rewrite Hclock. unfold JsDate.LocalTime. f_equal. lia.
Qed.

Lemma addMinutes_in_range (date amount : Z) :
  inDateRange (date + amount * DateFns.millisecondsInMinute) ->
  DateFns.addMinutes date amount =
  Some (date + amount * DateFns.millisecondsInMinute).
Proof.
  intros Hrange. unfold DateFns.addMinutes, DateFns.addMilliseconds.
  now apply TimeClip_in_range.
Qed.


Lemma string_append_cons (ch : Ascii.ascii) (a b : string) :
  String ch a +:+ b = String ch (a +:+ b).
Proof. reflexivity. Qed.

Lemma string_append_empty_l (a : string) : "" +:+ a = a.
Proof. reflexivity. Qed.

Lemma string_append_assoc (a b c : string) :
  (a +:+ b) +:+ c = a +:+ (b +:+ c).
Proof.
  induction a as [|ch a IH]; [reflexivity|].
  rewrite !string_append_cons. f_equal. exact IH.
Qed.

Lemma string_append_empty_r (a : string) : a +:+ "" = a.
Proof.
  induction a as [|ch a IH]; [reflexivity|].
  rewrite string_append_cons. f_equal. exact IH.
Qed.

(** After the first element, [joinFrom] appends each element behind a
    separator. *)
Lemma joinFrom_later (separator : string) (elements : list string) :
  forall (R : string) (k : nat),
    JsArray.joinFrom R separator (S k) elements =
    R +:+ match elements with
          | [] => ""
          | _ :: _ => separator +:+ String.concat separator elements
          end.
Proof.
  induction elements as [|x rest IH]; intros R k.
  - simpl. now rewrite string_append_empty_r.
  - cbn [JsArray.joinFrom]. rewrite IH. destruct rest as [|y rest'].
    + cbn [String.concat].
      now rewrite string_append_empty_r, string_append_assoc.
    + cbn [String.concat].
      now rewrite !string_append_assoc.
Qed.

(** [join] is the usual concatenation with a separator. *)
Lemma join_concat (elements : list string) (separator : string) :
  JsArray.join elements separator = String.concat separator elements.
Proof.
  unfold JsArray.join. destruct elements as [|x rest]; [reflexivity|].
  cbn [JsArray.joinFrom]. rewrite joinFrom_later, string_append_empty_l.
  destruct rest as [|y rest']; cbn [String.concat].
  - apply string_append_empty_r.
  - reflexivity.
Qed.

(** ** Facts about the filter callback *)

(** The callback, for a horse with both boundaries and in every zone. *)
Lemma inCooldown_spec (start : Z) (horse : Horse) (S E : Z) :
  cooldownStartDate horse = Some S ->
  cooldownEndDate horse = Some E ->
  inCooldown start horse = true <->
  S <= start
  /\ exists nextDay,
       DateFns.add E (DateFns.daysOnly 1) = Some nextDay
       /\ start < nextDay.
Proof.
  intros HS HE. unfold inCooldown. rewrite HS, HE.
  rewrite andb_true_iff, Z.leb_le.
  destruct (DateFns.add E (DateFns.daysOnly 1)) as [nextDay|]; cbn.
  - rewrite Z.ltb_lt. split.
    + intros [Hle Hlt]. split; [exact Hle|]. now exists nextDay.
    + intros [Hle (n & [= <-] & Hlt)]. now split.
  - split; [intros [_ H]; discriminate H|].
    intros [_ (n & H & _)]. discriminate H.
Qed.

(** The same where the day after the end is a date 86400000 ms
    later. *)
Lemma inCooldown_window (start : Z) (horse : Horse) (S E : Z) :
  cooldownStartDate horse = Some S ->
  cooldownEndDate horse = Some E ->
  noClockChangeAfter E ->
  inDateRange (E + DateFns.millisecondsInDay) ->
  inCooldown start horse = true <->
  S <= start /\ start < E + DateFns.millisecondsInDay.
Proof.
  intros HS HE Hclock Hrange.
  rewrite (inCooldown_spec start horse S E HS HE), (add_one_day E Hclock),
    (TimeClip_in_range _ Hrange).
  split.
  - intros [Hle (n & [= <-] & Hlt)]. now split.
  - intros [Hle Hlt]. split; [exact Hle|]. now eexists.
Qed.

Lemma inCooldown_absent (start : Z) (horse : Horse) :
  cooldownStartDate horse = None \/ cooldownEndDate horse = None ->
  inCooldown start horse = false.
Proof.
  intros [H | H]; unfold inCooldown; rewrite H; [reflexivity|].
  now destruct (cooldownStartDate horse).
Qed.

Lemma reports_iff (start : Z) (selected : list Horse) (horse : Horse) :
  reports start selected horse <->
  In horse selected /\ inCooldown start horse = true.
Proof. unfold reports, errorHorses. apply filter_In. Qed.

(** ** The cooldown check, horse by horse *)


(** C2.  A horse lacking its cooldown start, its cooldown end, or both is
    never reported, whatever the candidate start and whatever the other
    boundary holds. *)
Theorem absent_boundary_never_reported
    (selected : list Horse) (horse : Horse) (t : Z) :
  cooldownStartDate horse = None \/ cooldownEndDate horse = None ->
  ~ reports t selected horse.
Proof.
  intros Habsent Hrep. apply reports_iff in Hrep as [_ Hcb].
  rewrite (inCooldown_absent t horse Habsent) in Hcb. discriminate.
Qed.


(** C4.  The reported horses form a subsequence of the selected ones:
    the check keeps the order of its input. *)
Theorem errorHorses_sublist (start : Z) (selected : list Horse) :
  errorHorses start selected `sublist_of` selected.
Proof.
  unfold errorHorses.
  induction selected as [|horse selected IH]; cbn [List.filter].
  - constructor.
  - destruct (inCooldown start horse).
    + now apply sublist_skip.
    + now apply sublist_cons.
Qed.

(** ** The action as a whole *)

Lemma updateData_title (v : EditEvent) :
  Prisma.title (updateData v) = title v.
Proof. reflexivity. Qed.

Lemma updateData_horses (v : EditEvent) :
  Prisma.horses (updateData v) =
  match horses v with
  | Some selected => List.map id selected
  | None => []
  end.
Proof. unfold updateData; cbn. now destruct (horses v). Qed.

(** The early return of the check, in terms of the conflicting horses. *)
Lemma cooldownCheck_conflicts (submission : Submission) (v : EditEvent) :
  cooldownCheck submission v =
  match conflictingHorses v with
  | [] => None
  | _ :: _ => Some (horseErrorResponse submission (conflictingHorses v))
  end.
Proof.
  unfold cooldownCheck, conflictingHorses, horseErrorResponse.
  destruct (horses v) as [selected|]; [|reflexivity].
  now destruct (errorHorses (startDate v) selected).
Qed.

Lemma conflictingHorses_withDuration (d : Z) (v : EditEvent) :
  conflictingHorses (withDuration d v) = conflictingHorses v.
Proof. reflexivity. Qed.

Section ActionFacts.

Context {Rest : Type}.
Variable requireAdmin : Request -> bool.

Implicit Types (events : gmap string (Prisma.Event Rest)).

(** Past the guards the action is the check followed by the update. *)
Lemma action_validated request params eid v events :
  validated requireAdmin request params eid v ->
  action requireAdmin request params events =
  match conflictingHorses v with
  | _ :: _ =>
      (inr (horseErrorResponse (formData request) (conflictingHorses v)),
       events)
  | [] =>
      match events !! eid with
      | Some row =>
          (inr (successRedirect v),
           <[eid := Prisma.mkEvent (updateData v) (Prisma.rest row)]>
             events)
      | None => (inl RecordNotFound, events)
      end
  end.
Proof.
  intros (Hadmin & Hid & Htruthy & Hvalue).
  unfold action, bind, invariant. rewrite Hadmin, Hid, Htruthy.
  cbn [ret]. rewrite Hvalue, cooldownCheck_conflicts.
  destruct (conflictingHorses v) as [|horse conflicts]; [|reflexivity].
  unfold prismaEventUpdate, Prisma.eventUpdate.
  now destruct (events !! eid) as [row|].
Qed.

(** A run that stops before the check, or falls through it, carries no
    cooldown message. *)
Lemma action_message request params events :
  horseErrorMessage (fst (action requireAdmin request params events)) =
  if requireAdmin request then
    match eventId params with
    | Some eid =>
        if truthy eid then
          match value (formData request) with
          | Some v =>
              match conflictingHorses v with
              | [] => None
              | _ :: _ => Some (listOfHorses (conflictingHorses v))
              end
          | None => None
          end
        else None
    | None => None
    end
  else None.
Proof.
  unfold action, bind, invariant.
  destruct (requireAdmin request); [|reflexivity].
  destruct (eventId params) as [eid|]; [|reflexivity].
  destruct (truthy eid); [|reflexivity].
  cbn [ret]. destruct (value (formData request)) as [v|]; [|reflexivity].
  rewrite cooldownCheck_conflicts.
  destruct (conflictingHorses v) as [|horse conflicts]; [|reflexivity].
  unfold prismaEventUpdate, Prisma.eventUpdate.
  now destruct (events !! eid) as [row|].
Qed.

End ActionFacts.

Section ActionClaims.

Context {Rest : Type}.
Variable requireAdmin : Request -> bool.

Implicit Types (events : gmap string (Prisma.Event Rest)).

(** C5.  Once the form has validated: if the check finds conflicting
    horses, the action answers with the 'horse-error' result and the
    event table is left as it was; if it finds none, the action
    updates the stored event and redirects with the success toast.  The
    update writes the title, the start, the end ([duration] minutes
    after the start), the instructor, the ids of the selected horses,
    the four counts and the privacy flag of the form, and leaves the
    other columns of the row. *)
Theorem conflicts_abort_update request params eid v events :
  validated requireAdmin request params eid v ->
  (conflictingHorses v <> [] ->
   action requireAdmin request params events =
   (inr (Json {| status := "horse-error";
                 submission := formData request;
                 message := Some (listOfHorses (conflictingHorses v)) |}
           200),
    events))
  /\ (conflictingHorses v = [] ->
      forall row, events !! eid = Some row ->
        action requireAdmin request params events =
        (inr (RedirectWithToast ".."
                {| toastTitle := "Success";
                   variant := None;
                   description := "Updated event " +:+ title v |}),
         <[eid :=
             Prisma.mkEvent
               {| Prisma.title := title v;
                  Prisma.start := startDate v;
                  Prisma.end_ :=
                    DateFns.addMinutes (startDate v) (duration v);
                  Prisma.instructors :=
                    match instructor v with
                    | Some i =>
                        if String.eqb (instructorId i) "" then []
                        else [instructorId i]
                    | None => []
                    end;
                  Prisma.horses :=
                    match horses v with
                    | Some selected => List.map id selected
                    | None => []
                    end;
                  Prisma.cleaningCrewReq := cleaningCrewReq v;
                  Prisma.lessonAssistantsReq := lessonAssistantsReq v;
                  Prisma.sideWalkersReq := sideWalkersReq v;
                  Prisma.horseLeadersReq := horseLeadersReq v;
                  Prisma.isPrivate := isPrivate v |}
               (Prisma.rest row)]> events)
        /\ (inDateRange
              (startDate v + duration v * DateFns.millisecondsInMinute) ->
            DateFns.addMinutes (startDate v) (duration v) =
            Some (startDate v + duration v * DateFns.millisecondsInMinute))).
Proof.
  intros Hval. pose proof (action_validated requireAdmin request params
                             eid v events Hval) as Hrun.
  split.
  - intros Hconf. rewrite Hrun.
    destruct (conflictingHorses v); [contradiction | reflexivity].
  - intros Hnone row Hrow. rewrite Hrun, Hnone, Hrow.
    split; [| apply addMinutes_in_range].
    unfold successRedirect, updateData, truthy. do 4 f_equal.
    + destruct (instructor v) as [i|]; [| reflexivity].
      now destruct (String.eqb (instructorId i) "").
    + now destruct (horses v).
Qed.

(** C7.  When conflicts exist, the message of the 'horse-error' result
    is the names of the reported horses, in the order of the selection,
    joined by a comma and a space. *)
Theorem horse_error_message request params eid v selected events :
  validated requireAdmin request params eid v ->
  horses v = Some selected ->
  errorHorses (startDate v) selected <> [] ->
  action requireAdmin request params events =
  (inr (Json {| status := "horse-error";
                submission := formData request;
                message :=
                  Some (String.concat ", "
                          (List.map name
                             (errorHorses (startDate v) selected))) |}
          200),
   events).
Proof.
  intros Hval Hsel Hconf.
  rewrite (action_validated requireAdmin request params eid v events Hval).
  unfold conflictingHorses, horseErrorResponse, listOfHorses.
  rewrite Hsel, join_concat.
  destruct (errorHorses (startDate v) selected);
    [contradiction | reflexivity].
Qed.

(** C9.  When the form does not validate, the action answers with
    status 'error' and HTTP status 400, and the event table is left as
    it was: neither the check nor the update runs. *)
Theorem invalid_form_rejected request params eid events :
  requireAdmin request = true ->
  eventId params = Some eid ->
  truthy eid = true ->
  value (formData request) = None ->
  action requireAdmin request params events =
  (inr (Json {| status := "error";
                submission := formData request;
                message := None |} 400),
   events).
Proof.
  intros Hadmin Hid Htruthy Hvalue.
  unfold action, bind, invariant. rewrite Hadmin, Hid, Htruthy.
  cbn [ret]. now rewrite Hvalue.
Qed.

(** C10.  When the validated form has no [horses] field, the check is
    skipped: the action never answers with 'horse-error', and the
    update it performs stores the empty list of horses for the event,
    whatever horses the stored event had. *)
Theorem missing_horses_detach_all request params eid v :
  validated requireAdmin request params eid v ->
  horses v = None ->
  cooldownCheck (formData request) v = None
  /\ (forall events r,
        fst (action requireAdmin request params events) = inr r ->
        isHorseError r = false)
  /\ (forall events row, events !! eid = Some row ->
        action requireAdmin request params events =
        (inr (successRedirect v),
         <[eid := Prisma.mkEvent (updateData v) (Prisma.rest row)]> events)
        /\ Prisma.horses (updateData v) = []).
Proof.
  intros Hval Hnone.
  assert (Hconf : conflictingHorses v = [])
    by (unfold conflictingHorses; now rewrite Hnone).
  split; [| split].
  - unfold cooldownCheck. now rewrite Hnone.
  - intros events r.
    rewrite (action_validated requireAdmin request params eid v events Hval),
      Hconf.
    destruct (events !! eid); cbn [fst]; intros [= <-]. reflexivity.
  - intros events row Hrow. split.
    + rewrite (action_validated requireAdmin request params eid v events
                 Hval), Hconf, Hrow.
      reflexivity.
    + rewrite updateData_horses. now rewrite Hnone.
Qed.

(** C6.  Two submissions that differ only in the duration (and so in
    the end time written by the update) have the same conflicting
    horses, and the action gives both the same cooldown verdict and
    message. *)
Theorem duration_not_used request1 request2 params events v d :
  requireAdmin request1 = requireAdmin request2 ->
  value (formData request1) = Some v ->
  value (formData request2) = Some (withDuration d v) ->
  conflictingHorses (withDuration d v) = conflictingHorses v
  /\ horseErrorMessage
       (fst (action requireAdmin request1 params events)) =
     horseErrorMessage
       (fst (action requireAdmin request2 params events)).
Proof.
  intros Hadmin Hv1 Hv2. split; [apply conflictingHorses_withDuration|].
  rewrite !action_message, Hadmin, Hv1, Hv2.
  now rewrite conflictingHorses_withDuration.
Qed.

(** C8.  The check is a function of the candidate start and the
    selected horses alone: two runs that agree on both, whatever the
    rest of their requests and whatever the event tables they run
    against, find the same conflicting horses and give the same verdict
    and message; and a run that reports conflicts leaves the table
    untouched, so running it again gives the same answer. *)
Theorem check_deterministic
    request1 request2 params1 params2 eid1 eid2 v1 v2 events1 events2 :
  validated requireAdmin request1 params1 eid1 v1 ->
  validated requireAdmin request2 params2 eid2 v2 ->
  startDate v1 = startDate v2 ->
  horses v1 = horses v2 ->
  conflictingHorses v1 = conflictingHorses v2
  /\ horseErrorMessage
       (fst (action requireAdmin request1 params1 events1)) =
     horseErrorMessage
       (fst (action requireAdmin request2 params2 events2))
  /\ (conflictingHorses v1 <> [] ->
      action requireAdmin request1 params1
        (snd (action requireAdmin request1 params1 events1)) =
      action requireAdmin request1 params1 events1).
Proof.
  intros Hval1 Hval2 Hstart Hhorses.
  assert (Hsame : conflictingHorses v1 = conflictingHorses v2)
    by (unfold conflictingHorses; now rewrite Hstart, Hhorses).
  repeat split; [exact Hsame | |].
  - destruct Hval1 as (Ha1 & Hi1 & Ht1 & Hv1).
    destruct Hval2 as (Ha2 & Hi2 & Ht2 & Hv2).
    rewrite !action_message, Ha1, Ha2, Hi1, Hi2, Ht1, Ht2, Hv1, Hv2.
    now rewrite Hsame.
  - intros Hconf.
    rewrite !(action_validated requireAdmin request1 params1 eid1 v1 _
                Hval1).
    destruct (conflictingHorses v1); [contradiction | reflexivity].
Qed.

End ActionClaims.

(** ** Further facts about the cooldown check *)

Lemma errorHorses_nil_iff (start : Z) (selected : list Horse) :
  errorHorses start selected = [] <->
  forall horse, In horse selected -> inCooldown start horse = false.
Proof.
  unfold errorHorses.
  induction selected as [|h hs IH]; cbn [List.filter].
  - split; [intros _ horse [] | reflexivity].
  - destruct (inCooldown start h) eqn:Hh.
    + split; [discriminate|]. intros H.
      specialize (H h (or_introl eq_refl)). congruence.
    + rewrite IH. split.
      * intros H horse [<- | Hin]; auto.
      * intros H horse Hin. apply H. now right.
Qed.

Lemma inCooldown_true_inv (start : Z) (horse : Horse) :
  inCooldown start horse = true ->
  exists S E nextDay,
    cooldownStartDate horse = Some S /\ cooldownEndDate horse = Some E
    /\ DateFns.add E (DateFns.daysOnly 1) = Some nextDay
    /\ S <= start /\ start < nextDay.
Proof.
  intros H.
  destruct (cooldownStartDate horse) as [S|] eqn:HS;
    [| now rewrite inCooldown_absent in H by now left].
  destruct (cooldownEndDate horse) as [E|] eqn:HE;
    [| now rewrite inCooldown_absent in H by now right].
  destruct (proj1 (inCooldown_spec start horse S E HS HE) H)
    as [Hle (nextDay & Hadd & Hlt)].
  now exists S, E, nextDay.
Qed.

(** X1.  Where the day after every cooldown end of the selection is a
    date and sees no change of the clock, the check finds no conflict
    exactly when the start lies outside the window of every selected
    horse that has both boundaries: before its cooldown start, or a day
    or more after its cooldown end. *)
Theorem check_passes_iff_outside_windows
    (start : Z) (selected : list Horse) :
  (forall horse E,
     In horse selected ->
     cooldownEndDate horse = Some E ->
     noClockChangeAfter E /\ inDateRange (E + DateFns.millisecondsInDay)) ->
  errorHorses start selected = [] <->
  forall horse S E,
    In horse selected ->
    cooldownStartDate horse = Some S ->
    cooldownEndDate horse = Some E ->
    start < S \/ E + DateFns.millisecondsInDay <= start.
Proof.
  intros Hdays. rewrite errorHorses_nil_iff. split.
  - intros H horse S E Hin HS HE. specialize (H horse Hin).
    destruct (Hdays horse E Hin HE) as [Hclock Hrange].
    destruct (Z.lt_ge_cases start S) as [Hlt | Hge]; [now left | right].
    destruct (Z.lt_ge_cases start (E + DateFns.millisecondsInDay))
      as [Hin' | Hout]; [| exact Hout].
    assert (Htrue : inCooldown start horse = true)
      by (apply (inCooldown_window start horse S E HS HE Hclock Hrange);
          lia).
    congruence.
  - intros H horse Hin.
    destruct (inCooldown start horse) eqn:Hcb; [| reflexivity].
    destruct (inCooldown_true_inv start horse Hcb)
      as (S & E & nextDay & HS & HE & Hadd & Hle & Hlt).
    destruct (Hdays horse E Hin HE) as [Hclock Hrange].
    rewrite (add_one_day E Hclock), (TimeClip_in_range _ Hrange) in Hadd.
    injection Hadd as <-.
    specialize (H horse S E Hin HS HE). lia.
Qed.

(** X3.  A window whose start is a day or more after its end is empty:
    where the clock does not change over the day after the end, such a
    horse is never reported, whatever the candidate start. *)
Theorem inverted_window_never_reported
    (selected : list Horse) (horse : Horse) (S E t : Z) :
  cooldownStartDate horse = Some S ->
  cooldownEndDate horse = Some E ->
  noClockChangeAfter E ->
  E + DateFns.millisecondsInDay <= S ->
  ~ reports t selected horse.
Proof.
  intros HS HE Hclock Hinv Hrep. apply reports_iff in Hrep as [_ Hcb].
  destruct (proj1 (inCooldown_spec t horse S E HS HE) Hcb)
    as [Hle (nextDay & Hadd & Hlt)].
  rewrite (add_one_day E Hclock) in Hadd.
  apply TimeClip_Some in Hadd as [-> _]. lia.
Qed.

(** X4.  The starts for which a horse is reported form an interval: a
    horse reported for two starts is reported for every start between
    them. *)
Theorem reported_between
    (selected : list Horse) (horse : Horse) (t1 t2 t3 : Z) :
  reports t1 selected horse ->
  reports t3 selected horse ->
  t1 <= t2 <= t3 ->
  reports t2 selected horse.
Proof.
  intros H1 H3 Hbetween.
  apply reports_iff in H1 as [Hin H1]. apply reports_iff in H3 as [_ H3].
  apply reports_iff. split; [exact Hin|].
  destruct (inCooldown_true_inv t1 horse H1)
    as (S & E & nextDay & HS & HE & _ & Hlo & _).
  destruct (proj1 (inCooldown_spec t3 horse S E HS HE) H3)
    as [_ (n3 & Hadd & Hlt)].
  apply (inCooldown_spec t2 horse S E HS HE). split; [lia|].
  exists n3. split; [exact Hadd | lia].
Qed.

(** X5.  Deselecting horses never brings in a conflict: the horses
    reported for a part of a selection are, in order, among those
    reported for the whole selection. *)
Theorem errorHorses_monotone
    (start : Z) (fewer selected : list Horse) :
  fewer `sublist_of` selected ->
  errorHorses start fewer `sublist_of` errorHorses start selected.
Proof.
  unfold errorHorses. intros Hsub.
  induction Hsub as [| h l1 l2 _ IH | h l1 l2 _ IH]; cbn [List.filter].
  - constructor.
  - destruct (inCooldown start h); [now apply sublist_skip | exact IH].
  - destruct (inCooldown start h); [now apply sublist_cons | exact IH].
Qed.

Lemma conflictingHorses_withoutReported (v : EditEvent) :
  conflictingHorses (withoutReported v) = [].
Proof.
  unfold conflictingHorses, withoutReported, withHorses; cbn.
  destruct (horses v) as [selected|]; cbn; [| reflexivity].
  apply errorHorses_nil_iff. intros horse Hin.
  apply filter_In in Hin as [_ Hneg].
  now apply negb_true_iff in Hneg.
Qed.

(** ** Further facts about the action *)

Section ActionExtras.

Context {Rest : Type}.
Variable requireAdmin : Request -> bool.

Implicit Types (events : gmap string (Prisma.Event Rest)).

(** Every run either leaves the table alone and does not redirect, or
    is a validated, conflict-free update of a stored event. *)
Lemma action_cases request params events :
  (snd (action requireAdmin request params events) = events
   /\ isRedirect (fst (action requireAdmin request params events)) = false)
  \/ (exists eid v row,
        validated requireAdmin request params eid v
        /\ conflictingHorses v = []
        /\ events !! eid = Some row
        /\ action requireAdmin request params events =
           (inr (successRedirect v),
            <[eid := Prisma.mkEvent (updateData v) (Prisma.rest row)]>
              events)).
Proof.
  destruct (requireAdmin request) eqn:Hadmin;
    [| left; unfold action, bind; rewrite Hadmin; now split].
  destruct (eventId params) as [eid|] eqn:Hid;
    [| left; unfold action, bind, invariant; rewrite Hadmin, Hid;
       now split].
  destruct (truthy eid) eqn:Htruthy;
    [| left; unfold action, bind, invariant;
       rewrite Hadmin, Hid, Htruthy; now split].
  destruct (value (formData request)) as [v|] eqn:Hvalue;
    [| left; unfold action, bind, invariant;
       rewrite Hadmin, Hid, Htruthy; cbn [ret]; rewrite Hvalue;
       now split].
  assert (Hval : validated requireAdmin request params eid v)
    by (repeat split; assumption).
  rewrite (action_validated requireAdmin request params eid v events Hval).
  destruct (conflictingHorses v) as [|horse conflicts] eqn:Hconf;
    [| left; now split].
  destruct (events !! eid) as [row|] eqn:Hrow; [| left; now split].
  right. exists eid, v, row. repeat split; assumption || reflexivity.
Qed.

(** X2.  Resubmitting the form with the reported horses deselected and
    the same start always gets past the check: no conflict is left and a
    stored event is updated. *)
Theorem deselecting_reported_passes request params eid v events row :
  validated requireAdmin request params eid (withoutReported v) ->
  events !! eid = Some row ->
  conflictingHorses (withoutReported v) = []
  /\ action requireAdmin request params events =
     (inr (successRedirect (withoutReported v)),
      <[eid := Prisma.mkEvent (updateData (withoutReported v))
                 (Prisma.rest row)]> events).
Proof.
  intros Hval Hrow. split; [apply conflictingHorses_withoutReported|].
  rewrite (action_validated requireAdmin request params eid _ events Hval),
    conflictingHorses_withoutReported, Hrow.
  reflexivity.
Qed.

(** X6.  The action touches no event but the one named by the route:
    every other row reads the same before and after, whatever the
    request. *)
Theorem other_events_untouched request params events other :
  eventId params <> Some other ->
  snd (action requireAdmin request params events) !! other =
  events !! other.
Proof.
  intros Hother.
  destruct (action_cases request params events)
    as [[Hsame _] | (eid & v & row & Hval & _ & _ & Hrun)].
  - now rewrite Hsame.
  - rewrite Hrun; cbn [snd]. destruct Hval as (_ & Hid & _).
    apply lookup_insert_ne. congruence.
Qed.

(** X7.  The action neither creates nor deletes events, and it keeps the
    columns it does not write: the set of stored ids is the same before
    and after, and every stored row keeps its remaining columns. *)
Theorem action_keeps_rows request params events :
  dom (snd (action requireAdmin request params events)) = dom events
  /\ forall key row,
       events !! key = Some row ->
       exists row',
         snd (action requireAdmin request params events) !! key = Some row'
         /\ Prisma.rest row' = Prisma.rest row.
Proof.
  destruct (action_cases request params events)
    as [[Hsame _] | (eid & v & row0 & _ & _ & Hrow0 & Hrun)].
  - rewrite Hsame. split; [reflexivity|]. intros key row Hrow.
    now exists row.
  - rewrite Hrun; cbn [snd]. split.
    + apply dom_insert_lookup_L. now rewrite Hrow0.
    + intros key row Hrow. destruct (decide (eid = key)) as [<- | Hne].
      * rewrite lookup_insert_eq. eexists; split; [reflexivity|].
        cbn. congruence.
      * rewrite lookup_insert_ne by exact Hne. now exists row.
Qed.

(** X8.  The table is written only by a run that ends in the success
    redirect: after a thrown exception or a json answer it is as it
    was. *)
Theorem no_redirect_no_write request params events :
  isRedirect (fst (action requireAdmin request params events)) = false ->
  snd (action requireAdmin request params events) = events.
Proof.
  intros Hno.
  destruct (action_cases request params events)
    as [[Hsame _] | (eid & v & row & _ & _ & _ & Hrun)];
    [exact Hsame|].
  rewrite Hrun in Hno. discriminate Hno.
Qed.

(** X9.  A caller who is not an admin gets the rejection of
    [requireAdmin] whatever the route and the form hold, and the table
    is as it was. *)
Theorem not_admin_rejected request params events :
  requireAdmin request = false ->
  action requireAdmin request params events = (inl AdminRequired, events).
Proof.
  intros Hadmin. unfold action, bind. now rewrite Hadmin.
Qed.

(** X10.  For an admin, a route without event id, or with an empty one,
    fails the invariant with 'Missing event id' before the form is
    looked at; the table is as it was. *)
Theorem missing_event_id_rejected request params events :
  requireAdmin request = true ->
  eventId params = None \/ eventId params = Some "" ->
  action requireAdmin request params events =
  (inl (InvariantFailed "Missing event id"), events).
Proof.
  intros Hadmin [Hid | Hid]; unfold action, bind, invariant;
    now rewrite Hadmin, Hid.
Qed.

(** X11.  What a successful save stores satisfies the refinements of the
    schema: for a value the schema lets through, with a whole number of
    minutes as duration and an end within the range of [Date], the
    stored event ends after it starts, exactly [duration] minutes later,
    has a non-empty title and counts of volunteers above -1. *)
Theorem stored_event_well_formed request params eid v events row :
  validated requireAdmin request params eid v ->
  editEventSchemaRefinements v = true ->
  inDateRange (startDate v + duration v * DateFns.millisecondsInMinute) ->
  conflictingHorses v = [] ->
  events !! eid = Some row ->
  exists row' stop,
    snd (action requireAdmin request params events) !! eid = Some row'
    /\ Prisma.end_ (Prisma.data row') = Some stop
    /\ Prisma.start (Prisma.data row') < stop
    /\ stop - Prisma.start (Prisma.data row') =
       duration v * DateFns.millisecondsInMinute
    /\ Prisma.title (Prisma.data row') <> ""
    /\ -1 < Prisma.cleaningCrewReq (Prisma.data row')
    /\ -1 < Prisma.lessonAssistantsReq (Prisma.data row')
    /\ -1 < Prisma.sideWalkersReq (Prisma.data row')
    /\ -1 < Prisma.horseLeadersReq (Prisma.data row').
Proof.
  intros Hval Hschema Hrange Hconf Hrow.
  rewrite (action_validated requireAdmin request params eid v events Hval),
    Hconf, Hrow; cbn [snd].
  rewrite lookup_insert_eq. eexists; eexists. split; [reflexivity|].
  unfold editEventSchemaRefinements in Hschema.
  repeat (apply andb_true_iff in Hschema as [Hschema ?]).
  apply Nat.leb_le in Hschema.
  repeat match goal with H : (_ <? _) = true |- _ => apply Z.ltb_lt in H end.
  cbn [Prisma.data Prisma.end_ Prisma.start Prisma.title updateData
       Prisma.cleaningCrewReq Prisma.lessonAssistantsReq
       Prisma.sideWalkersReq Prisma.horseLeadersReq].
  split; [now apply addMinutes_in_range|].
  unfold DateFns.millisecondsInMinute.
  repeat split; try lia.
  intros Hempty. rewrite Hempty in Hschema. cbn in Hschema. lia.
Qed.

(** X12.  After a run that ends in the success redirect, the event has at
    most one instructor, and no instructor with an empty id: the one of
    the form when it has a non-empty id, none when the form has no
    instructor or one with an empty id. *)
Theorem at_most_one_instructor request params events eid :
  eventId params = Some eid ->
  isRedirect (fst (action requireAdmin request params events)) = true ->
  exists row' v,
    value (formData request) = Some v
    /\ snd (action requireAdmin request params events) !! eid = Some row'
    /\ (length (Prisma.instructors (Prisma.data row')) <= 1)%nat
    /\ ~ In "" (Prisma.instructors (Prisma.data row'))
    /\ (forall i, instructor v = Some i -> instructorId i <> "" ->
          Prisma.instructors (Prisma.data row') = [instructorId i])
    /\ (instructor v = None
        \/ (exists i, instructor v = Some i /\ instructorId i = "") ->
        Prisma.instructors (Prisma.data row') = []).
Proof.
  intros Hid Hred.
  destruct (action_cases request params events)
    as [[_ Hno] | (eid' & v & row & Hval & _ & _ & Hrun)];
    [congruence|].
  destruct Hval as (_ & Hid' & _ & Hvalue).
  assert (eid' = eid) as -> by congruence.
  rewrite Hrun; cbn [snd]. rewrite lookup_insert_eq.
  eexists; exists v. split; [exact Hvalue|]. split; [reflexivity|].
  cbn. destruct (instructor v) as [i|]; cbn.
  - unfold truthy. destruct (String.eqb_spec (instructorId i) "") as [He|Hne];
      cbn.
    + split; [lia|]. split; [tauto|]. split; [| reflexivity].
      intros i' [= <-] Hne. contradiction.
    + split; [lia|]. split; [intros [H | []]; congruence|]. split.
      * now intros i' [= <-] _.
      * intros [H | (i' & [= <-] & H)]; [discriminate H | contradiction].
  - split; [lia|]. split; [tauto|]. split; [discriminate | reflexivity].
Qed.

(** X13.  An empty selection of horses is handled like a missing
    [horses] field: the two forms get the same response and leave the
    same table. *)
Theorem empty_selection_like_missing
    request1 request2 params eid v events :
  validated requireAdmin request1 params eid v ->
  validated requireAdmin request2 params eid (withHorses None v) ->
  horses v = Some [] ->
  action requireAdmin request1 params events =
  action requireAdmin request2 params events.
Proof.
  intros Hval1 Hval2 Hempty.
  rewrite (action_validated requireAdmin request1 params eid v events Hval1),
    (action_validated requireAdmin request2 params eid _ events Hval2).
  unfold conflictingHorses, updateData, successRedirect, withHorses; cbn.
  rewrite Hempty; cbn. reflexivity.
Qed.

(** X14.  The update is no upsert, and the check comes first: for an
    event id that is not stored, a validated form with conflicting
    horses still gets the 'horse-error' answer, a form without conflicts
    makes the update reject, and in both cases no row is created. *)
Theorem unknown_event_not_created request params eid v events :
  validated requireAdmin request params eid v ->
  events !! eid = None ->
  action requireAdmin request params events =
  (match conflictingHorses v with
   | [] => inl RecordNotFound
   | _ :: _ =>
       inr (horseErrorResponse (formData request) (conflictingHorses v))
   end,
   events).
Proof.
  intros Hval Hrow.
  rewrite (action_validated requireAdmin request params eid v events Hval),
    Hrow.
  now destruct (conflictingHorses v).
Qed.

(** X15.  Saving twice is saving once: running the action again with the
    same request on the table the first run left gives the same outcome
    and the same table. *)
Theorem action_idempotent request params events :
  action requireAdmin request params
    (snd (action requireAdmin request params events)) =
  action requireAdmin request params events.
Proof.
  destruct (action_cases request params events)
    as [[Hsame _] | (eid & v & row & Hval & Hconf & Hrow & Hrun)].
  - now rewrite Hsame.
  - rewrite Hrun; cbn [snd].
    rewrite (action_validated requireAdmin request params eid v _ Hval),
      Hconf, lookup_insert_eq.
    cbn [Prisma.rest]. now rewrite insert_insert_eq.
Qed.

End ActionExtras.

(** ** The editor: loader, component and action together *)

Lemma differenceInMinutes_addMinutes (start amount : Z) :
  inDateRange (start + amount * DateFns.millisecondsInMinute) ->
  Editor.differenceInMinutes
    (Editor.reviveDate (DateFns.addMinutes start amount)) start =
  amount.
Proof.
  intros Hrange. rewrite (addMinutes_in_range start amount Hrange).
  unfold Editor.differenceInMinutes, Editor.reviveDate.
  replace (start + amount * DateFns.millisecondsInMinute - start)
    with (amount * DateFns.millisecondsInMinute) by lia.
  apply Z.quot_mul. discriminate.
Qed.

Lemma memberOf_In (ids : list string) (key : string) :
  Db.memberOf ids key = true <-> In key ids.
Proof.
  unfold Db.memberOf. rewrite existsb_exists. split.
  - intros (x & Hin & Heq). apply String.eqb_eq in Heq. now subst.
  - intros Hin. exists key. split; [exact Hin | apply String.eqb_refl].
Qed.

Lemma hasRole_iff (roleNamed : string) (user : Db.User) :
  Db.hasRole roleNamed user = true <->
  exists r, In r (Db.roles user) /\ Db.roleName r = roleNamed.
Proof.
  unfold Db.hasRole. rewrite existsb_exists.
  split; intros (r & Hin & Heq); exists r; split; try exact Hin;
    now apply String.eqb_eq.
Qed.

Section EditorFacts.

Context {Rest : Type}.
Variable requireAdmin : Request -> bool.

Implicit Types (events : gmap string (Prisma.Event Rest)).
Implicit Types (tables : Db.Tables Rest).

(** The outcome of the action, guard by guard. *)
Lemma action_outcome request params events :
  fst (action requireAdmin request params events) =
  if requireAdmin request then
    match eventId params with
    | Some eid =>
        if truthy eid then
          match value (formData request) with
          | Some v =>
              match conflictingHorses v with
              | [] =>
                  match events !! eid with
                  | Some _ => inr (successRedirect v)
                  | None => inl RecordNotFound
                  end
              | _ :: _ =>
                  inr (horseErrorResponse (formData request)
                         (conflictingHorses v))
              end
          | None =>
              inr (Json {| status := "error";
                           submission := formData request;
                           message := None |} 400)
          end
        else inl (InvariantFailed "Missing event id")
    | None => inl (InvariantFailed "Missing event id")
    end
  else inl AdminRequired.
Proof.
  destruct (requireAdmin request) eqn:Hadmin;
    [| unfold action, bind; now rewrite Hadmin].
  destruct (eventId params) as [eid|] eqn:Hid;
    [| unfold action, bind, invariant; now rewrite Hadmin, Hid].
  destruct (truthy eid) eqn:Htruthy;
    [| unfold action, bind, invariant; now rewrite Hadmin, Hid, Htruthy].
  destruct (value (formData request)) as [v|] eqn:Hvalue;
    [| unfold action, bind, invariant; rewrite Hadmin, Hid, Htruthy;
       cbn [ret]; now rewrite Hvalue].
  assert (Hval : validated requireAdmin request params eid v)
    by (repeat split; assumption).
  rewrite (action_validated requireAdmin request params eid v events Hval).
  destruct (conflictingHorses v); [| reflexivity].
  now destruct (events !! eid).
Qed.

(** X16.  Save, then reopen the editor: after a successful save the
    loader finds the event with the columns of the form and the other
    columns it had, and the editor then proposes the privacy that was
    saved and, the end being within the range of [Date], the duration
    that was saved. *)
Theorem saved_event_reloads
    request reload params eid v tables row :
  validated requireAdmin request params eid v ->
  inDateRange (startDate v + duration v * DateFns.millisecondsInMinute) ->
  conflictingHorses v = [] ->
  Db.events tables !! eid = Some row ->
  requireAdmin reload = true ->
  exists data,
    EditorLoader.loader requireAdmin reload params
      (Db.mkTables (Db.users tables) (Db.horseRows tables)
         (snd (action requireAdmin request params (Db.events tables)))) =
    inr data
    /\ Db.row (EditorLoader.event data) =
       Prisma.mkEvent (updateData v) (Prisma.rest row)
    /\ Editor.defaultDuration (Some data) = duration v
    /\ Editor.defaultIsPrivate (Some data) = isPrivate v.
Proof.
  intros Hval Hrange Hconf Hrow Hreload.
  rewrite (action_validated requireAdmin request params eid v _ Hval),
    Hconf, Hrow; cbn [snd].
  destruct Hval as (_ & Hid & Htruthy & _).
  unfold EditorLoader.loader, Db.eventFindUnique.
  rewrite Hreload, Hid, Htruthy. cbn [Db.events].
  rewrite lookup_insert_eq. eexists. split; [reflexivity|].
  split; [reflexivity|]. split; [| reflexivity].
  unfold Editor.defaultDuration; cbn.
  now apply differenceInMinutes_addMinutes.
Qed.

(** X17.  After a successful save the reloaded event comes with exactly
    the stored horses whose id was selected in the form: none when the
    form had no [horses] field. *)
Theorem saved_horses_reload
    request reload params eid v tables row data :
  validated requireAdmin request params eid v ->
  conflictingHorses v = [] ->
  Db.events tables !! eid = Some row ->
  EditorLoader.loader requireAdmin reload params
    (Db.mkTables (Db.users tables) (Db.horseRows tables)
       (snd (action requireAdmin request params (Db.events tables)))) =
  inr data ->
  forall horse,
    In horse (Db.includedHorses (EditorLoader.event data)) <->
    In horse (Db.horseRows tables)
    /\ exists selected,
         horses v = Some selected /\ In (id horse) (List.map id selected).
Proof.
  intros Hval Hconf Hrow Hload horse.
  rewrite (action_validated requireAdmin request params eid v _ Hval),
    Hconf, Hrow in Hload; cbn [snd] in Hload.
  destruct Hval as (_ & Hid & Htruthy & _).
  unfold EditorLoader.loader, Db.eventFindUnique in Hload.
  rewrite Hid, Htruthy in Hload. cbn [Db.events] in Hload.
  rewrite lookup_insert_eq in Hload.
  destruct (requireAdmin reload); [| discriminate Hload].
  injection Hload as <-. cbn [EditorLoader.event Db.includedHorses
    Db.horseRows Prisma.data].
  rewrite filter_In, memberOf_In.
  destruct (horses v) as [selected|]; cbn [option_map].
  - split; [intros [Hin Hsel]; split; eauto |].
    intros [Hin (s & [= <-] & Hsel)]. now split.
  - split; [intros [_ []] | intros [_ (s & Hs & _)]; discriminate Hs].
Qed.

(** X18.  For an admin and a route with a non-empty event id, the loader
    throws its 404 'not found' response exactly when no event is stored
    under that id. *)
Theorem loader_not_found request params eid tables :
  requireAdmin request = true ->
  eventId params = Some eid ->
  truthy eid = true ->
  EditorLoader.loader requireAdmin request params tables =
  inl (EditorLoader.ThrownResponse "not found" 404)
  <-> Db.events tables !! eid = None.
Proof.
  intros Hadmin Hid Htruthy.
  unfold EditorLoader.loader, Db.eventFindUnique.
  rewrite Hadmin, Hid, Htruthy.
  destruct (Db.events tables !! eid); split; congruence.
Qed.

(** X20.  The editor raises its cooldown toast exactly when the action
    found conflicting horses, and the toast then lists their names,
    joined by a comma and a space; a validated form without conflicts
    raises none. *)
Theorem toast_lists_reported_horses request params eid v events :
  validated requireAdmin request params eid v ->
  Editor.resetCallback
    (Editor.useActionData
       (fst (action requireAdmin request params events))) =
  match conflictingHorses v with
  | [] => None
  | _ :: _ =>
      Some {| Editor.toastVariant := "destructive";
              Editor.toastHeading :=
                "The following horses are scheduled for cooldown on the selected date:";
              Editor.toastDescription :=
                Some (String.concat ", "
                        (List.map name (conflictingHorses v))) |}
  end.
Proof.
  intros (Hadmin & Hid & Htruthy & Hvalue).
  rewrite action_outcome, Hadmin, Hid, Htruthy, Hvalue.
  destruct (conflictingHorses v) as [|horse conflicts] eqn:Hconf.
  - now destruct (events !! eid).
  - unfold horseErrorResponse, listOfHorses. rewrite join_concat.
    reflexivity.
Qed.

(** X21.  While no submission is in flight, the Save button shows
    'error' exactly after a form that failed validation: never after a
    cooldown conflict, a thrown exception or a successful save. *)
Theorem save_button_error_iff_invalid request params events :
  Editor.saveButtonStatus false
    (Editor.useActionData
       (fst (action requireAdmin request params events))) = "error"
  <-> requireAdmin request = true
      /\ (exists eid, eventId params = Some eid /\ truthy eid = true)
      /\ value (formData request) = None.
Proof.
  rewrite action_outcome.
  destruct (requireAdmin request);
    [| cbn; split; [discriminate | intros [H _]; discriminate H]].
  destruct (eventId params) as [eid|];
    [| cbn; split; [discriminate
                   | intros (_ & (e & H & _) & _); discriminate H]].
  destruct (truthy eid) eqn:Htruthy;
    [| cbn; split; [discriminate
                   | intros (_ & (e & [= <-] & H) & _); congruence]].
  destruct (value (formData request)) as [v|].
  - split; [| intros (_ & _ & H); discriminate H].
    destruct (conflictingHorses v); [destruct (events !! eid)|];
      cbn; discriminate.
  - cbn. split; [| reflexivity]. intros _. repeat split. now exists eid.
Qed.

End EditorFacts.

(** ** Facts about [slice] *)

Lemma slice_empty (start end_ : nat) : JsString.slice "" start end_ = "".
Proof.
  unfold JsString.slice; cbn. rewrite !Nat.min_0_r. reflexivity.
Qed.

Lemma substring_none (s : string) :
  forall n : nat, String.substring n 0 s = "".
Proof.
  induction s as [|ch s IH]; intros [|n]; cbn; auto.
Qed.

Lemma slice_to_zero (s : string) (start : nat) :
  JsString.slice s start 0 = "".
Proof.
  unfold JsString.slice. cbn [Nat.min Nat.sub]. apply substring_none.
Qed.

Lemma slice_cons_zero (ch : Ascii.ascii) (s : string) (end_ : nat) :
  JsString.slice (String ch s) 0 (S end_) =
  String ch (JsString.slice s 0 end_).
Proof.
  unfold JsString.slice. cbn [String.length Nat.min Nat.sub].
  rewrite !Nat.sub_0_r. reflexivity.
Qed.

Lemma slice_cons_succ (ch : Ascii.ascii) (s : string) (start end_ : nat) :
  JsString.slice (String ch s) (S start) (S end_) =
  JsString.slice s start end_.
Proof. reflexivity. Qed.

(** Two adjacent slices make one. *)
Lemma slice_app (s : string) :
  forall a b c : nat,
    (a <= b <= c)%nat ->
    JsString.slice s a b +:+ JsString.slice s b c = JsString.slice s a c.
Proof.
  induction s as [|ch s IH]; intros a b c Habc.
  - now rewrite !slice_empty.
  - destruct c as [|c].
    + assert (a = 0%nat /\ b = 0%nat) as [-> ->] by lia.
      now rewrite !slice_to_zero.
    + destruct b as [|b].
      * assert (a = 0%nat) as -> by lia.
        now rewrite slice_to_zero, string_append_empty_l.
      * destruct a as [|a].
        -- rewrite !slice_cons_zero, slice_cons_succ, string_append_cons.
           f_equal. apply IH. lia.
        -- rewrite !slice_cons_succ. apply IH. lia.
Qed.

Lemma slice_length (s : string) :
  forall a b : nat,
    String.length (JsString.slice s a b) =
    (Nat.min b (String.length s) - Nat.min a (String.length s))%nat.
Proof.
  induction s as [|ch s IH]; intros a b.
  - rewrite slice_empty. cbn. now rewrite !Nat.min_0_r.
  - destruct b as [|b]; [now rewrite slice_to_zero|].
    destruct a as [|a].
    + rewrite slice_cons_zero. cbn [String.length]. rewrite IH.
      cbn [Nat.min Nat.sub]. lia.
    + rewrite slice_cons_succ, IH. reflexivity.
Qed.

Lemma slice_all (s : string) :
  forall n : nat, (String.length s <= n)%nat -> JsString.slice s 0 n = s.
Proof.
  induction s as [|ch s IH]; intros n Hn.
  - apply slice_empty.
  - destruct n as [|n]; [cbn in Hn; lia|].
    rewrite slice_cons_zero. f_equal. apply IH. cbn in Hn. lia.
Qed.

(** ** The users table *)

(** X22.  The phone column shows the first ten characters of a non-empty
    number in three groups between two dashes: without the dashes the
    cell is the number cut at ten characters, so a number of at most ten
    characters is shown whole, and one of exactly ten as groups of
    three, three and four. *)
Theorem phone_cell_groups (s : string) :
  s <> "" ->
  exists a b c,
    UsersTable.phoneCell (Some s) = Some (a +:+ "-" +:+ b +:+ "-" +:+ c)
    /\ a +:+ b +:+ c = JsString.slice s 0 10
    /\ ((String.length s <= 10)%nat -> a +:+ b +:+ c = s)
    /\ (String.length s = 10%nat ->
        String.length a = 3%nat /\ String.length b = 3%nat
        /\ String.length c = 4%nat).
Proof.
  intros Hne.
  exists (JsString.slice s 0 3), (JsString.slice s 3 6),
    (JsString.slice s 6 10).
  assert (Hcut : JsString.slice s 0 3 +:+ JsString.slice s 3 6
                 +:+ JsString.slice s 6 10 = JsString.slice s 0 10).
  { rewrite (slice_app s 3 6 10) by lia. apply slice_app. lia. }
  repeat split.
  - unfold UsersTable.phoneCell, truthy.
    destruct (String.eqb_spec s "") as [He | _]; [contradiction|].
    reflexivity.
  - exact Hcut.
  - intros Hlen. rewrite Hcut. now apply slice_all.
  - rewrite slice_length. lia.
  - rewrite slice_length. lia.
  - rewrite slice_length. lia.
Qed.

(** X23.  The phone column is empty exactly for a missing or an empty
    number; a short number still gets its two dashes. *)
Theorem phone_cell_absent_iff (phone : option string) :
  UsersTable.phoneCell phone = None <-> phone = None \/ phone = Some "".
Proof.
  unfold UsersTable.phoneCell, truthy. destruct phone as [s|].
  - destruct (String.eqb_spec s "") as [-> | Hne]; cbn.
    + split; [now right | reflexivity].
    + split; [discriminate | intros [H | [= H]]; [discriminate | contradiction]].
  - split; [now left | reflexivity].
Qed.

Lemma findRole_iff (roleNamed : string) (user : Db.User) :
  UsersTable.findRole roleNamed user <> None <->
  exists r, In r (Db.roles user) /\ Db.roleName r = roleNamed.
Proof.
  unfold UsersTable.findRole. split.
  - destruct (List.find _ (Db.roles user)) as [r|] eqn:Hfind;
      [| congruence].
    intros _. apply find_some in Hfind as [Hin Heq].
    exists r. split; [exact Hin | now apply String.eqb_eq].
  - intros (r & Hin & Heq) Hnone.
    apply (find_none _ _ Hnone) in Hin. apply String.eqb_neq in Hin.
    contradiction.
Qed.

(** X24.  A role column says 'Yes' exactly for the users who hold a role
    of that name, and the menu offers to demote exactly the users whose
    admin column says 'Yes', to promote the others; the role columns
    agree with the filter the editor's loader uses. *)
Theorem role_cells_agree (roleNamed : string) (user : Db.User) :
  (UsersTable.roleCell roleNamed user = "Yes" <->
   exists r, In r (Db.roles user) /\ Db.roleName r = roleNamed)
  /\ (UsersTable.roleCell roleNamed user = "Yes" <->
      Db.hasRole roleNamed user = true)
  /\ (UsersTable.promoteLabel (UsersTable.actionsCell user) =
      "Demote from Admin" <-> UsersTable.adminCell user = "Yes")
  /\ (UsersTable.promoteLabel (UsersTable.actionsCell user) =
      "Promote to Admin" <-> UsersTable.adminCell user = "No").
Proof.
  assert (Hcell : forall n, UsersTable.roleCell n user = "Yes" <->
                    UsersTable.findRole n user <> None).
  { intros n. unfold UsersTable.roleCell.
    destruct (UsersTable.findRole n user); split;
      congruence || discriminate. }
  repeat split.
  - intros H. now apply findRole_iff, Hcell.
  - intros H. now apply Hcell, findRole_iff.
  - intros H. now apply hasRole_iff, findRole_iff, Hcell.
  - intros H. now apply Hcell, findRole_iff, hasRole_iff.
  - unfold UsersTable.adminCell, UsersTable.actionsCell,
      UsersTable.roleCell; cbn.
    destruct (UsersTable.findRole "admin" user); [reflexivity | discriminate].
  - unfold UsersTable.adminCell, UsersTable.actionsCell,
      UsersTable.roleCell; cbn.
    destruct (UsersTable.findRole "admin" user); [reflexivity | discriminate].
  - unfold UsersTable.adminCell, UsersTable.actionsCell,
      UsersTable.roleCell; cbn.
    destruct (UsersTable.findRole "admin" user); [discriminate | reflexivity].
  - unfold UsersTable.adminCell, UsersTable.actionsCell,
      UsersTable.roleCell; cbn.
    destruct (UsersTable.findRole "admin" user); [discriminate | reflexivity].
Qed.

(** ** The root of the application *)

(** X25.  [links] has no [null] entry, and the css bundle adds its two
    links when its href is a non-empty string: thirteen entries then,
    eleven otherwise. *)
Theorem links_without_null
    (iconsHref fontUrl tailwindUrl : string) (cssBundleHref : option string) :
  Forall (fun entry => entry <> None)
    (Root.links iconsHref fontUrl tailwindUrl cssBundleHref)
  /\ length (Root.links iconsHref fontUrl tailwindUrl cssBundleHref) =
     if Root.truthyHref cssBundleHref then 13%nat else 11%nat.
Proof.
  unfold Root.links, Root.truthyHref.
  destruct cssBundleHref as [h|]; [destruct (truthy h)|];
    cbn; (split; [repeat constructor; discriminate | reflexivity]).
Qed.

(** X26.  Every stylesheet among the links is preloaded: an earlier
    entry preloads the same href as a style. *)
Theorem stylesheets_are_preloaded
    (iconsHref fontUrl tailwindUrl : string) (cssBundleHref : option string)
    (j : nat) (sheet : Root.LinkDescriptor) :
  Root.links iconsHref fontUrl tailwindUrl cssBundleHref !! j =
    Some (Some sheet) ->
  Root.rel sheet = "stylesheet" ->
  exists i,
    (i < j)%nat
    /\ Root.links iconsHref fontUrl tailwindUrl cssBundleHref !! i =
       Some (Some (Root.mkLink "preload" (Root.href sheet) (Some "style")
                     None None)).
Proof.
  unfold Root.links. intros Hj Hrel.
  destruct cssBundleHref as [h|]; [destruct (truthy h)|];
    cbn [List.filter Root.Boolean] in *;
    repeat (destruct j as [|j];
            [ injection Hj as <-; cbn in Hrel;
              first [ discriminate Hrel
                    | (exists 1%nat; split; [lia | reflexivity])
                    | (exists 2%nat; split; [lia | reflexivity])
                    | (exists 3%nat; split; [lia | reflexivity]) ]
            | cbn in Hj ]);
    discriminate Hj.
Qed.

Lemma truthy_iff (s : string) : truthy s = true <-> s <> "".
Proof.
  unfold truthy. destruct (String.eqb_spec s ""); cbn; split;
    congruence || discriminate.
Qed.

Section RootFacts.

Context {Hints Theme Env Flash Headers : Type}.
Variable getUserId : Request -> option string.
Variable getFlashSession : Request -> Flash * Headers.
Variable getHints : Request -> Hints.
Variable getDomainUrl : Request -> string.
Variable pathname : Request -> string.
Variable getTheme : Request -> Theme.
Variable getEnv : Env.
Variable serverTimingHeaders : Request -> Headers.
Variable combineHeaders : Headers -> Headers -> Headers.

Local Abbreviation rootLoader :=
  (Root.loader getUserId getFlashSession getHints getDomainUrl pathname
     getTheme getEnv serverTimingHeaders combineHeaders).

(** X27.  The root loader logs out, with a redirect to '/', exactly the
    sessions whose user is not stored any more; when it answers, the
    user it gives is the stored user of the session, and it gives none
    exactly when the request carries no session (or an empty id). *)
Theorem root_loader_user request (users : gmap string Root.SelectedUser) :
  (rootLoader request users = inl (Root.LogoutRedirect "/") <->
   exists uid,
     getUserId request = Some uid /\ uid <> "" /\ users !! uid = None)
  /\ forall data responseHeaders,
       rootLoader request users = inr (data, responseHeaders) ->
       match Root.user data with
       | Some u =>
           exists uid,
             getUserId request = Some uid /\ uid <> ""
             /\ users !! uid = Some u
       | None => getUserId request = None \/ getUserId request = Some ""
       end.
Proof.
  unfold Root.loader.
  destruct (getUserId request) as [uid|]; cycle 1.
  { destruct (getFlashSession request) as [fl hs]. split.
    - split; [discriminate | intros (u & H & _); discriminate H].
    - intros data rh [= <- _]. cbn. now left. }
  destruct (truthy uid) eqn:Htruthy; cycle 1.
  { assert (uid = "") as ->.
    { destruct (String.eqb_spec uid "") as [H | H]; [exact H|].
      apply truthy_iff in H. congruence. }
    destruct (getFlashSession request) as [fl hs]. split.
    - split; [discriminate | intros (u & [= <-] & H & _); contradiction].
    - intros data rh [= <- _]. cbn. now right. }
  apply truthy_iff in Htruthy.
  destruct (users !! uid) as [u|] eqn:Hu.
  - destruct (getFlashSession request) as [fl hs]. split.
    + split; [discriminate | intros (u' & [= <-] & _ & H); congruence].
    + intros data rh [= <- _]. cbn. now exists uid.
  - split.
    + split; [| reflexivity]. intros _. now exists uid.
    + intros data rh H. discriminate H.
Qed.

End RootFacts.

Lemma head_filter_find {A : Type} (p : A -> bool) (l : list A) :
  List.head (List.filter p l) = List.find p l.
Proof.
  induction l as [|x l IH]; cbn; [reflexivity|].
  now destruct (p x).
Qed.

Lemma find_pointwise {A : Type} (p q : A -> bool) (l : list A) :
  (forall x, p x = q x) -> List.find p l = List.find q l.
Proof.
  intros Hpq. induction l as [|x l IH]; cbn; [reflexivity|].
  now rewrite Hpq, IH.
Qed.

Section InstructorRoundTrip.

Context {Rest : Type}.
Variable requireAdmin : Request -> bool.

(** X28.  After a successful save the editor proposes as instructor the
    first stored user with the id of the instructor of the form, and
    nobody when the form had no instructor or one with an empty id: a
    save without instructor clears the one the event had. *)
Theorem saved_instructor_reloads
    request reload params eid v (tables : Db.Tables Rest) row data :
  validated requireAdmin request params eid v ->
  conflictingHorses v = [] ->
  Db.events tables !! eid = Some row ->
  EditorLoader.loader requireAdmin reload params
    (Db.mkTables (Db.users tables) (Db.horseRows tables)
       (snd (action requireAdmin request params (Db.events tables)))) =
  inr data ->
  Editor.defaultInstructor (Some data) =
  match instructor v with
  | Some i =>
      if truthy (instructorId i) then
        List.find (fun u => String.eqb (Db.userId u) (instructorId i))
          (Db.users tables)
      else None
  | None => None
  end.
Proof.
  intros Hval Hconf Hrow Hload.
  rewrite (action_validated requireAdmin request params eid v _ Hval),
    Hconf, Hrow in Hload; cbn [snd] in Hload.
  destruct Hval as (_ & Hid & Htruthy & _).
  unfold EditorLoader.loader, Db.eventFindUnique in Hload.
  rewrite Hid, Htruthy in Hload. cbn [Db.events] in Hload.
  rewrite lookup_insert_eq in Hload.
  destruct (requireAdmin reload); [| discriminate Hload].
  injection Hload as <-.
  unfold Editor.defaultInstructor.
  cbn [EditorLoader.event Db.includedInstructors Db.users Prisma.data].
  rewrite head_filter_find. unfold updateData; cbn [Prisma.instructors].
  destruct (instructor v) as [i|]; [destruct (truthy (instructorId i))|].
  - apply find_pointwise. intros u. unfold Db.memberOf; cbn. apply orb_false_r.
  - induction (Db.users tables) as [|u us IH]; [reflexivity | exact IH].
  - induction (Db.users tables) as [|u us IH]; [reflexivity | exact IH].
Qed.

End InstructorRoundTrip.

End Zoned.

(** ** The sample data, on a UTC clock *)

#[local] Existing Instance Zone.utc.

(** The model of [add] against two runs of date-fns: a day added to
    2024-03-10T05:00Z, midnight in New York on the day the clock goes
    forward, is 23 hours; a day added to the last date there is gives no
    date, and nothing is below it. *)
Example add_day_new_york_spring :
  DateFns.add (tz := Zone.newYork2024) 1710046800000 (DateFns.daysOnly 1) =
  Some 1710129600000.
Proof. reflexivity. Qed.

Example add_day_past_range :
  DateFns.add 8640000000000000 (DateFns.daysOnly 1) = None
  /\ inCooldown 1705050000000
       (mkHorse "h0" "Ash" (Some 0) (Some 8640000000000000)) = false.
Proof. split; reflexivity. Qed.

(** On the day the clock goes back in New York the day after the end
    lasts 25 hours: a start 24 hours after the end is still reported. *)
Example fall_back_day_reported :
  errorHorses (tz := Zone.newYork2024) (1730606400000 + 86400000)
    [mkHorse "h0" "Ash" (Some 1730606400000) (Some 1730606400000)] =
  [mkHorse "h0" "Ash" (Some 1730606400000) (Some 1730606400000)].
Proof. reflexivity. Qed.

Example addMinutes_past_range :
  DateFns.addMinutes 1705309200000 100000000000000000 = None.
Proof. reflexivity. Qed.

Lemma date_2024_01_12 :
  Calendar.date 2024 1 12 = 1705017600000.
Proof. reflexivity. Qed.

Example join_three : JsArray.join ["a"; "b"; "c"] ", " = "a, b, c".
Proof. reflexivity. Qed.

Example join_none : JsArray.join [] ", " = "".
Proof. reflexivity. Qed.

Example errorHorses_busy :
  errorHorses (Calendar.utc 2024 1 12 9 0)
    [Sample.biscuit; Sample.clover; Sample.domino] =
  [Sample.biscuit; Sample.domino].
Proof. reflexivity. Qed.

Example errorHorses_free :
  errorHorses (Calendar.utc 2024 1 15 9 0)
    [Sample.biscuit; Sample.clover; Sample.domino] = [].
Proof. reflexivity. Qed.

(** The epoch itself is a date like any other: a boundary at time value
    0 is present. *)
Example errorHorses_epoch :
  errorHorses 0 [mkHorse "h0" "Ash" (Some 0) (Some 0)] =
  [mkHorse "h0" "Ash" (Some 0) (Some 0)].
Proof. reflexivity. Qed.


Lemma absent_boundary_never_reported_witness :
  let horse := mkHorse "h2" "Clover" None (Some (Calendar.date 2024 1 12)) in
  ~ reports (Calendar.utc 2024 1 12 9 0) [horse] horse.
Proof.
  intros horse.
  apply (absent_boundary_never_reported (tz := Zone.utc) [horse] horse
           (Calendar.utc 2024 1 12 9 0)).
  left; reflexivity.
Defined.



Lemma sample_validated (v : EditEvent) :
  validated Sample.anyone (Sample.post (Some v)) Sample.route "ev1" v.
Proof. repeat split. Qed.

Lemma sample_lookup : Sample.table !! "ev1" = Some Sample.stored.
Proof. apply lookup_singleton_eq. Qed.

(** Outside the guards: a caller who is not an admin, a route without
    event id, an event that is not stored. *)
Example action_not_admin :
  action (fun _ => false) (Sample.post (Some Sample.free)) Sample.route
    Sample.table =
  (inl AdminRequired, Sample.table).
Proof. reflexivity. Qed.

Example action_no_event_id :
  action Sample.anyone (Sample.post (Some Sample.free)) (mkParams None)
    Sample.table =
  (inl (InvariantFailed "Missing event id"), Sample.table).
Proof. reflexivity. Qed.

Example action_unknown_event :
  action Sample.anyone (Sample.post (Some Sample.free)) Sample.route
    (∅ : gmap string (Prisma.Event unit)) =
  (inl RecordNotFound, ∅).
Proof. reflexivity. Qed.

Lemma conflicts_abort_update_witness :
  action Sample.anyone (Sample.post (Some Sample.busy)) Sample.route
    Sample.table =
  (inr (horseErrorResponse (mkSubmission [] (Some Sample.busy))
          [Sample.biscuit; Sample.domino]),
   Sample.table)
  /\ action Sample.anyone (Sample.post (Some Sample.free)) Sample.route
       Sample.table =
     (inr (RedirectWithToast ".."
             {| toastTitle := "Success";
                variant := None;
                description := "Updated event Lesson" |}),
      <["ev1" :=
          Prisma.mkEvent
            {| Prisma.title := "Lesson";
               Prisma.start := Calendar.utc 2024 1 15 9 0;
               Prisma.end_ := Some (Calendar.utc 2024 1 15 10 0);
               Prisma.instructors := [];
               Prisma.horses := ["h1"; "h2"; "h3"];
               Prisma.cleaningCrewReq := 1;
               Prisma.lessonAssistantsReq := 1;
               Prisma.sideWalkersReq := 2;
               Prisma.horseLeadersReq := 1;
               Prisma.isPrivate := false |} tt]> Sample.table).
Proof.
  split.
  - assert (Hconf : conflictingHorses Sample.busy <> [])
      by (vm_compute; discriminate).
    exact (proj1 (conflicts_abort_update (tz := Zone.utc) Sample.anyone
                    (Sample.post (Some Sample.busy)) Sample.route "ev1"
                    Sample.busy Sample.table
                    (sample_validated Sample.busy)) Hconf).
  - exact (proj1 (proj2 (conflicts_abort_update (tz := Zone.utc) Sample.anyone
                           (Sample.post (Some Sample.free)) Sample.route
                           "ev1" Sample.free Sample.table
                           (sample_validated Sample.free))
                    eq_refl Sample.stored sample_lookup)).
Defined.

Lemma horse_error_message_witness :
  action Sample.anyone (Sample.post (Some Sample.busy)) Sample.route
    Sample.table =
  (inr (Json {| status := "horse-error";
                submission := mkSubmission [] (Some Sample.busy);
                message := Some "Biscuit, Domino" |} 200),
   Sample.table).
Proof.
  assert (Hconf : errorHorses (startDate Sample.busy)
                    [Sample.biscuit; Sample.clover; Sample.domino] <> [])
    by (vm_compute; discriminate).
  exact (horse_error_message (tz := Zone.utc)
           Sample.anyone (Sample.post (Some Sample.busy))
           Sample.route "ev1" Sample.busy
           [Sample.biscuit; Sample.clover; Sample.domino] Sample.table
           (sample_validated Sample.busy) eq_refl Hconf).
Defined.

Lemma invalid_form_rejected_witness :
  action Sample.anyone (Sample.post None) Sample.route Sample.table =
  (inr (Json {| status := "error";
                submission := mkSubmission [] None;
                message := None |} 400),
   Sample.table).
Proof.
  apply (invalid_form_rejected (tz := Zone.utc) Sample.anyone (Sample.post None)
           Sample.route "ev1" Sample.table);
    reflexivity.
Defined.

Lemma missing_horses_detach_all_witness :
  Prisma.horses (Prisma.data Sample.stored) = ["h1"; "h3"]
  /\ action Sample.anyone (Sample.post (Some Sample.noHorses)) Sample.route
       Sample.table =
     (inr (successRedirect Sample.noHorses),
      <["ev1" := Prisma.mkEvent (updateData Sample.noHorses) tt]>
        Sample.table)
  /\ Prisma.horses (updateData Sample.noHorses) = [].
Proof.
  split; [reflexivity|].
  apply (proj2 (proj2 (missing_horses_detach_all (tz := Zone.utc) Sample.anyone
                         (Sample.post (Some Sample.noHorses)) Sample.route
                         "ev1" Sample.noHorses
                         (sample_validated Sample.noHorses) eq_refl))
           Sample.table Sample.stored sample_lookup).
Defined.

Lemma duration_not_used_witness :
  Prisma.end_ (updateData (withDuration 90 Sample.busy)) <>
  Prisma.end_ (updateData Sample.busy)
  /\ conflictingHorses (withDuration 90 Sample.busy) =
     conflictingHorses Sample.busy
  /\ horseErrorMessage
       (fst (action Sample.anyone (Sample.post (Some Sample.busy))
               Sample.route Sample.table)) =
     horseErrorMessage
       (fst (action Sample.anyone
               (Sample.post (Some (withDuration 90 Sample.busy)))
               Sample.route Sample.table)).
Proof.
  split; [vm_compute; discriminate|].
  apply (duration_not_used (tz := Zone.utc)
           Sample.anyone (Sample.post (Some Sample.busy))
           (Sample.post (Some (withDuration 90 Sample.busy)))
           Sample.route Sample.table Sample.busy 90);
    reflexivity.
Defined.

Lemma check_deterministic_witness :
  conflictingHorses Sample.busy = conflictingHorses Sample.busyOther
  /\ horseErrorMessage
       (fst (action Sample.anyone (Sample.post (Some Sample.busy))
               Sample.route Sample.table)) =
     horseErrorMessage
       (fst (action Sample.anyone (Sample.post (Some Sample.busyOther))
               Sample.route (∅ : gmap string (Prisma.Event unit))))
  /\ (conflictingHorses Sample.busy <> [] ->
      action Sample.anyone (Sample.post (Some Sample.busy)) Sample.route
        (snd (action Sample.anyone (Sample.post (Some Sample.busy))
                Sample.route Sample.table)) =
      action Sample.anyone (Sample.post (Some Sample.busy)) Sample.route
        Sample.table).
Proof.
  apply (check_deterministic (tz := Zone.utc) Sample.anyone
           (Sample.post (Some Sample.busy))
           (Sample.post (Some Sample.busyOther))
           Sample.route Sample.route "ev1" "ev1"
           Sample.busy Sample.busyOther Sample.table ∅
           (sample_validated Sample.busy)
           (sample_validated Sample.busyOther));
    reflexivity.
Defined.

Lemma check_passes_iff_outside_windows_witness :
  errorHorses (Calendar.utc 2024 1 15 9 0)
    [Sample.biscuit; Sample.clover; Sample.domino] = []
  <-> forall horse S E,
        In horse [Sample.biscuit; Sample.clover; Sample.domino] ->
        cooldownStartDate horse = Some S ->
        cooldownEndDate horse = Some E ->
        Calendar.utc 2024 1 15 9 0 < S
        \/ E + DateFns.millisecondsInDay <= Calendar.utc 2024 1 15 9 0.
Proof.
  apply (check_passes_iff_outside_windows (tz := Zone.utc)
           (Calendar.utc 2024 1 15 9 0)
           [Sample.biscuit; Sample.clover; Sample.domino]).
  intros horse E [<- | [<- | [<- | []]]] [= <-];
    (split; [reflexivity | vm_compute; discriminate]).
Defined.

Lemma inverted_window_never_reported_witness :
  let horse := mkHorse "h4" "Echo" (Some (Calendar.date 2024 1 14))
                 (Some (Calendar.date 2024 1 12)) in
  ~ reports (Calendar.utc 2024 1 13 9 0) [horse] horse.
Proof.
  intros horse.
  apply (inverted_window_never_reported (tz := Zone.utc) [horse] horse
           (Calendar.date 2024 1 14) (Calendar.date 2024 1 12)
           (Calendar.utc 2024 1 13 9 0));
    [reflexivity | reflexivity | reflexivity | vm_compute; discriminate].
Defined.

Lemma reported_between_witness :
  reports (Calendar.utc 2024 1 11 12 0) [Sample.biscuit] Sample.biscuit.
Proof.
  apply (reported_between (tz := Zone.utc) [Sample.biscuit] Sample.biscuit
           (Calendar.date 2024 1 10) (Calendar.utc 2024 1 11 12 0)
           (Calendar.utc 2024 1 12 23 59)).
  - left; reflexivity.
  - left; reflexivity.
  - split; vm_compute; discriminate.
Defined.

Lemma errorHorses_monotone_witness :
  errorHorses (Calendar.utc 2024 1 12 9 0) [Sample.clover; Sample.domino]
  `sublist_of`
  errorHorses (Calendar.utc 2024 1 12 9 0)
    [Sample.biscuit; Sample.clover; Sample.domino].
Proof.
  apply (errorHorses_monotone (tz := Zone.utc) (Calendar.utc 2024 1 12 9 0)
           [Sample.clover; Sample.domino]
           [Sample.biscuit; Sample.clover; Sample.domino]).
  apply sublist_cons. apply sublist_skip. apply sublist_skip.
  apply sublist_nil.
Defined.

Lemma deselecting_reported_passes_witness :
  horses (withoutReported Sample.busy) = Some [Sample.clover]
  /\ conflictingHorses (withoutReported Sample.busy) = []
  /\ action Sample.anyone
       (Sample.post (Some (withoutReported Sample.busy))) Sample.route
       Sample.table =
     (inr (successRedirect (withoutReported Sample.busy)),
      <["ev1" := Prisma.mkEvent (updateData (withoutReported Sample.busy))
                   tt]> Sample.table).
Proof.
  split; [reflexivity|].
  apply (deselecting_reported_passes (tz := Zone.utc) Sample.anyone
           (Sample.post (Some (withoutReported Sample.busy))) Sample.route
           "ev1" Sample.busy Sample.table Sample.stored
           (sample_validated (withoutReported Sample.busy)) sample_lookup).
Defined.

Lemma other_events_untouched_witness :
  snd (action Sample.anyone (Sample.post (Some Sample.free)) Sample.route
         MoreSamples.twoEvents) !! "ev2" =
  MoreSamples.twoEvents !! "ev2".
Proof.
  apply (other_events_untouched (tz := Zone.utc) Sample.anyone
           (Sample.post (Some Sample.free)) Sample.route
           MoreSamples.twoEvents "ev2").
  discriminate.
Defined.

Lemma no_redirect_no_write_witness :
  snd (action Sample.anyone (Sample.post (Some Sample.busy)) Sample.route
         Sample.table) =
  Sample.table.
Proof.
  apply (no_redirect_no_write (tz := Zone.utc) Sample.anyone
           (Sample.post (Some Sample.busy)) Sample.route Sample.table).
  reflexivity.
Defined.

Lemma not_admin_rejected_witness :
  action MoreSamples.nobody (Sample.post (Some Sample.free)) Sample.route
    Sample.table =
  (inl AdminRequired, Sample.table).
Proof.
  apply (not_admin_rejected (tz := Zone.utc) MoreSamples.nobody
           (Sample.post (Some Sample.free)) Sample.route Sample.table).
  reflexivity.
Defined.

Lemma missing_event_id_rejected_witness :
  action Sample.anyone (Sample.post None) (mkParams (Some ""))
    Sample.table =
  (inl (InvariantFailed "Missing event id"), Sample.table).
Proof.
  apply (missing_event_id_rejected (tz := Zone.utc)
           Sample.anyone (Sample.post None)
           (mkParams (Some "")) Sample.table);
    [reflexivity | right; reflexivity].
Defined.

Lemma stored_event_well_formed_witness :
  exists row' stop,
    snd (action Sample.anyone (Sample.post (Some Sample.free)) Sample.route
           Sample.table) !! "ev1" = Some row'
    /\ Prisma.end_ (Prisma.data row') = Some stop
    /\ Prisma.start (Prisma.data row') < stop
    /\ stop - Prisma.start (Prisma.data row') =
       duration Sample.free * DateFns.millisecondsInMinute
    /\ Prisma.title (Prisma.data row') <> ""
    /\ -1 < Prisma.cleaningCrewReq (Prisma.data row')
    /\ -1 < Prisma.lessonAssistantsReq (Prisma.data row')
    /\ -1 < Prisma.sideWalkersReq (Prisma.data row')
    /\ -1 < Prisma.horseLeadersReq (Prisma.data row').
Proof.
  apply (stored_event_well_formed (tz := Zone.utc) Sample.anyone
           (Sample.post (Some Sample.free)) Sample.route "ev1" Sample.free
           Sample.table Sample.stored (sample_validated Sample.free)
           eq_refl);
    [vm_compute; discriminate | reflexivity | exact sample_lookup].
Defined.

Lemma at_most_one_instructor_witness :
  exists row' v,
    value (formData (Sample.post (Some MoreSamples.withRobin))) = Some v
    /\ snd (action Sample.anyone (Sample.post (Some MoreSamples.withRobin))
              Sample.route Sample.table) !! "ev1" = Some row'
    /\ (length (Prisma.instructors (Prisma.data row')) <= 1)%nat
    /\ ~ In "" (Prisma.instructors (Prisma.data row'))
    /\ (forall i, instructor v = Some i -> instructorId i <> "" ->
          Prisma.instructors (Prisma.data row') = [instructorId i])
    /\ (instructor v = None
        \/ (exists i, instructor v = Some i /\ instructorId i = "") ->
        Prisma.instructors (Prisma.data row') = []).
Proof.
  apply (at_most_one_instructor (tz := Zone.utc) Sample.anyone
           (Sample.post (Some MoreSamples.withRobin)) Sample.route
           Sample.table "ev1" eq_refl).
  rewrite (action_validated (tz := Zone.utc) Sample.anyone _ Sample.route "ev1"
             MoreSamples.withRobin Sample.table
             (sample_validated MoreSamples.withRobin)).
  reflexivity.
Defined.

Lemma empty_selection_like_missing_witness :
  action Sample.anyone (Sample.post (Some MoreSamples.emptySelection))
    Sample.route Sample.table =
  action Sample.anyone
    (Sample.post (Some (withHorses None MoreSamples.emptySelection)))
    Sample.route Sample.table.
Proof.
  apply (empty_selection_like_missing (tz := Zone.utc) Sample.anyone
           (Sample.post (Some MoreSamples.emptySelection))
           (Sample.post (Some (withHorses None MoreSamples.emptySelection)))
           Sample.route "ev1" MoreSamples.emptySelection Sample.table
           (sample_validated MoreSamples.emptySelection)
           (sample_validated (withHorses None MoreSamples.emptySelection))
           eq_refl).
Defined.

Lemma unknown_event_not_created_witness :
  action Sample.anyone (Sample.post (Some Sample.busy))
    (mkParams (Some "ev9")) Sample.table =
  (inr (horseErrorResponse (mkSubmission [] (Some Sample.busy))
          [Sample.biscuit; Sample.domino]),
   Sample.table)
  /\ action Sample.anyone (Sample.post (Some Sample.free))
       (mkParams (Some "ev9")) Sample.table =
     (inl RecordNotFound, Sample.table).
Proof.
  assert (Hval : forall v, validated Sample.anyone (Sample.post (Some v))
                             (mkParams (Some "ev9")) "ev9" v)
    by (intros v; repeat split).
  assert (Hnone : Sample.table !! "ev9" = None)
    by (apply lookup_singleton_ne; discriminate).
  split.
  - exact (unknown_event_not_created (tz := Zone.utc) Sample.anyone
             (Sample.post (Some Sample.busy)) (mkParams (Some "ev9")) "ev9"
             Sample.busy Sample.table (Hval Sample.busy) Hnone).
  - exact (unknown_event_not_created (tz := Zone.utc) Sample.anyone
             (Sample.post (Some Sample.free)) (mkParams (Some "ev9")) "ev9"
             Sample.free Sample.table (Hval Sample.free) Hnone).
Defined.

Lemma phone_cell_groups_witness :
  UsersTable.phoneCell (Some "5551234567") = Some "555-123-4567"
  /\ exists a b c,
       UsersTable.phoneCell (Some "5551234567") =
       Some (a +:+ "-" +:+ b +:+ "-" +:+ c)
       /\ a +:+ b +:+ c = JsString.slice "5551234567" 0 10
       /\ ((String.length "5551234567" <= 10)%nat ->
           a +:+ b +:+ c = "5551234567")
       /\ (String.length "5551234567" = 10%nat ->
           String.length a = 3%nat /\ String.length b = 3%nat
           /\ String.length c = 4%nat).
Proof.
  split; [reflexivity|].
  apply (phone_cell_groups "5551234567"). discriminate.
Defined.

Lemma saved_event_reloads_witness :
  exists data,
    EditorLoader.loader Sample.anyone (Sample.post None) Sample.route
      EditorSamples.tablesAfterSave = inr data
    /\ Db.row (EditorLoader.event data) =
       Prisma.mkEvent (updateData Sample.free) tt
    /\ Editor.defaultDuration (Some data) = 60
    /\ Editor.defaultIsPrivate (Some data) = false.
Proof.
  apply (saved_event_reloads (tz := Zone.utc)
           Sample.anyone (Sample.post (Some Sample.free))
           (Sample.post None) Sample.route "ev1" Sample.free
           EditorSamples.tables Sample.stored
           (sample_validated Sample.free));
    [vm_compute; discriminate | reflexivity | exact sample_lookup
    | reflexivity].
Defined.

Lemma sample_reload :
  EditorLoader.loader Sample.anyone (Sample.post None) Sample.route
    EditorSamples.tablesAfterSave = inr EditorSamples.reloaded.
Proof. reflexivity. Qed.

Lemma saved_horses_reload_witness :
  In Sample.domino
    (Db.includedHorses (EditorLoader.event EditorSamples.reloaded))
  <-> In Sample.domino (Db.horseRows EditorSamples.tables)
      /\ exists selected,
           horses Sample.free = Some selected
           /\ In (id Sample.domino) (List.map id selected).
Proof.
  apply (saved_horses_reload (tz := Zone.utc) Sample.anyone
           (Sample.post (Some Sample.free)) (Sample.post None) Sample.route
           "ev1" Sample.free EditorSamples.tables Sample.stored
           EditorSamples.reloaded (sample_validated Sample.free) eq_refl
           sample_lookup sample_reload Sample.domino).
Defined.

Lemma loader_not_found_witness :
  EditorLoader.loader Sample.anyone (Sample.post None)
    (mkParams (Some "ev9")) EditorSamples.tables =
  inl (EditorLoader.ThrownResponse "not found" 404)
  <-> Db.events EditorSamples.tables !! "ev9" = None.
Proof.
  apply (loader_not_found Sample.anyone (Sample.post None)
           (mkParams (Some "ev9")) "ev9" EditorSamples.tables);
    reflexivity.
Defined.

Lemma toast_lists_reported_horses_witness :
  Editor.resetCallback
    (Editor.useActionData
       (fst (action Sample.anyone (Sample.post (Some Sample.busy))
               Sample.route Sample.table))) =
  Some {| Editor.toastVariant := "destructive";
          Editor.toastHeading :=
            "The following horses are scheduled for cooldown on the selected date:";
          Editor.toastDescription := Some "Biscuit, Domino" |}.
Proof.
  apply (toast_lists_reported_horses (tz := Zone.utc) Sample.anyone
           (Sample.post (Some Sample.busy)) Sample.route "ev1" Sample.busy
           Sample.table (sample_validated Sample.busy)).
Defined.

Lemma stylesheets_are_preloaded_witness :
  exists i,
    (i < 12)%nat
    /\ Root.links "/icons.svg" "/font.css" "/tailwind.css"
         (Some "/bundle.css") !! i =
       Some (Some (Root.mkLink "preload" "/bundle.css" (Some "style")
                     None None)).
Proof.
  apply (stylesheets_are_preloaded "/icons.svg" "/font.css" "/tailwind.css"
           (Some "/bundle.css") 12
           (Root.mkLink "stylesheet" "/bundle.css" None None None));
    reflexivity.
Defined.

Lemma sample_reload_robin :
  EditorLoader.loader Sample.anyone (Sample.post None) Sample.route
    (Db.mkTables (Db.users EditorSamples.tables)
       (Db.horseRows EditorSamples.tables)
       (snd (action Sample.anyone (Sample.post (Some MoreSamples.withRobin))
               Sample.route (Db.events EditorSamples.tables)))) =
  inr (EditorLoader.mkData
         (Db.mkEventWithRelations
            (Prisma.mkEvent (updateData MoreSamples.withRobin) tt)
            [Sample.biscuit] [EditorSamples.robin])
         [Sample.biscuit; Sample.clover; Sample.domino]
         [EditorSamples.robin]).
Proof. reflexivity. Qed.

Lemma saved_instructor_reloads_witness :
  Editor.defaultInstructor
    (Some (EditorLoader.mkData
             (Db.mkEventWithRelations
                (Prisma.mkEvent (updateData MoreSamples.withRobin) tt)
                [Sample.biscuit] [EditorSamples.robin])
             [Sample.biscuit; Sample.clover; Sample.domino]
             [EditorSamples.robin])) =
  Some EditorSamples.robin.
Proof.
  apply (saved_instructor_reloads (tz := Zone.utc) Sample.anyone
           (Sample.post (Some MoreSamples.withRobin)) (Sample.post None)
           Sample.route "ev1" MoreSamples.withRobin EditorSamples.tables
           Sample.stored _ (sample_validated MoreSamples.withRobin) eq_refl
           sample_lookup sample_reload_robin).
Defined.
